(** * Raspadinha Premiada: the prize engine, the ticket life cycle and the
    statistics of [main.py], embedded in Rocq.

    Python [float]s are IEEE-754 binary64 values: they are modelled by Rocq's
    primitive floats, whose operations are the same binary64 operations with
    rounding to nearest even.  Python [int]s are modelled by [Z].  Python
    dictionaries keep insertion order, which [sum] over [values()] observes:
    they are modelled by association lists with unique keys.  Values drawn
    from the outside world ([random.random()], [uuid.uuid4()],
    [datetime.now()]) are explicit arguments of the functions that consume
    them.  Calls to [logger] have no effect on the state and are left out. *)

From Stdlib Require Import ZArith QArith Qabs Floats List String Bool Lia.
Import ListNotations.

Set Warnings "-inexact-float".

Open Scope string_scope.
Open Scope Z_scope.

(** ** Binary64 numbers *)

(** [float(n)] for a Python [int]: the nearest binary64 number (exact below
    [2^53]; Python raises [OverflowError] where this gives an infinity, far
    beyond any count or amount of this program). *)
Definition float_of_int (n : Z) : float :=
  SF2Prim (binary_normalize prec emax n 0 false).

(** The value of a decimal literal of the source text: Python reads a float
    literal as the binary64 number nearest to the decimal it denotes.  For a
    decimal [n / d] with [n] and [d] below [2^53] this is the correctly rounded
    quotient of the two integers. *)
Definition float_of_decimal (q : Q) : float :=
  (float_of_int (Qnum q) / float_of_int (Zpos (Qden q)))%float.

(** Python's [sum] over floats: the additions from [0], left to right.
    (Since version 3.12 CPython compensates the rounding errors of these
    additions; the result is the same whenever no addition rounds, as with
    the ticket prices 5, 10, 25 and 50 while the total is below [2^53].) *)
Definition py_sum_float (xs : list float) : float :=
  fold_left PrimFloat.add xs 0%float.

(** Python's [sum] over ints. *)
Definition py_sum_int (xs : list Z) : Z :=
  fold_left Z.add xs 0.

(** Python's [a / b] on two ints (true division).  CPython rounds the exact
    quotient once; for operands below [2^53], as every count of this program
    is, that is the binary64 quotient of the two converted operands. *)
Definition int_truediv (a b : Z) : float :=
  (float_of_int a / float_of_int b)%float.

(** Python's [x in xs] for a float and a list of ints: numerical equality
    with one of the elements. *)
Definition float_in (x : float) (xs : list Z) : bool :=
  existsb (fun k => (x =? float_of_int k)%float) xs.

(** ** Simulador de sistema de prêmios: [class PrizeSystem] *)

Module Prize.
(** One entry of a prize pool: [{"amount": .., "probability": .., "message": ..}]. *)
Record t := mk { amount : Z; probability : float; message : string }.
End Prize.

Module Outcome.
(** The dictionary returned by [generate_prize]. *)
Record t := mk
  { amount : Z;
    message : string;
    is_winner : bool;
    prize_tier : string;
    timestamp : string }.
End Outcome.

Module PrizeSystem.

(** [self.prize_pools], keyed by the ticket price, entries in declared order. *)
Definition prize_pools : list (Z * list Prize.t) :=
  [ (5,
     [ Prize.mk 0 0.75 "Tente novamente!";
       Prize.mk 5 0.15 "Recuperou o valor!";
       Prize.mk 15 0.08 "Triplicou!";
       Prize.mk 50 0.019 "Grande prêmio!";
       Prize.mk 250 0.001 "JACKPOT!" ]);
    (10,
     [ Prize.mk 0 0.70 "Tente novamente!";
       Prize.mk 10 0.18 "Recuperou o valor!";
       Prize.mk 30 0.10 "Triplicou!";
       Prize.mk 100 0.019 "Grande prêmio!";
       Prize.mk 500 0.001 "JACKPOT!" ]);
    (25,
     [ Prize.mk 0 0.65 "Tente novamente!";
       Prize.mk 25 0.20 "Recuperou o valor!";
       Prize.mk 75 0.12 "Triplicou!";
       Prize.mk 250 0.029 "Grande prêmio!";
       Prize.mk 1000 0.001 "JACKPOT!" ]);
    (50,
     [ Prize.mk 0 0.60 "Tente novamente!";
       Prize.mk 50 0.22 "Recuperou o valor!";
       Prize.mk 150 0.15 "Triplicou!";
       Prize.mk 500 0.029 "Grande prêmio!";
       Prize.mk 2500 0.001 "JACKPOT!" ]) ].

(** The decimal literals that the source text gives as probabilities, per
    price and in declared order, as exact rationals. *)
Definition probability_literals : list (Z * list Q) :=
  [ (5,  [0.75; 0.15; 0.08; 0.019; 0.001]%Q);
    (10, [0.70; 0.18; 0.10; 0.019; 0.001]%Q);
    (25, [0.65; 0.20; 0.12; 0.029; 0.001]%Q);
    (50, [0.60; 0.22; 0.15; 0.029; 0.001]%Q) ].

(** [self.prize_pools[k]] for an int key.  The only key the program asks for
    is [5], which is present ([prize_pools_getitem_5] below), so the
    [KeyError] branch is never taken. *)
Definition prize_pools_getitem (k : Z) : list Prize.t :=
  match find (fun kv => fst kv =? k) prize_pools with
  | Some kv => snd kv
  | None => []
  end.

(** [self.prize_pools.get(ticket_price, default)] for a float key: a float
    finds an int key exactly when the two are numerically equal (a NaN finds
    nothing). *)
Definition prize_pools_get (ticket_price : float) (default : list Prize.t)
  : list Prize.t :=
  match find (fun kv => (ticket_price =? float_of_int (fst kv))%float) prize_pools with
  | Some kv => snd kv
  | None => default
  end.

(** [PrizeSystem._get_prize_tier]. *)
Definition _get_prize_tier (amount : Z) : string :=
  if amount >=? 1000 then "jackpot"
  else if amount >=? 100 then "major"
  else if amount >=? 10 then "minor"
  else if amount >? 0 then "consolation"
  else "none".

(** The [for prize in prizes] loop of [generate_prize]: it returns the entry
    at which the loop returns, or [None] when the loop runs to its end. *)
Fixpoint generate_prize_loop (prizes : list Prize.t)
  (cumulative_probability random_value : float) : option Prize.t :=
  match prizes with
  | [] => None
  | prize :: rest =>
      let cumulative_probability :=
        (cumulative_probability + Prize.probability prize)%float in
      if (random_value <=? cumulative_probability)%float then Some prize
      else generate_prize_loop rest cumulative_probability random_value
  end.

(** [PrizeSystem.generate_prize], with the value of [random.random()] and of
    [datetime.now().isoformat()] as arguments. *)
Definition generate_prize (ticket_price : float) (random_value : float)
  (now : string) : Outcome.t :=
  let prizes := prize_pools_get ticket_price (prize_pools_getitem 5) in
  match generate_prize_loop prizes 0%float random_value with
  | Some prize =>
      Outcome.mk (Prize.amount prize) (Prize.message prize)
        (Prize.amount prize >? 0) (_get_prize_tier (Prize.amount prize)) now
  | None =>
      Outcome.mk 0 "Tente novamente!" false "none" now
  end.

End PrizeSystem.

(** ** Python dictionaries with string keys

    Insertion-ordered: assigning to a key that is present replaces the value
    where it stands, assigning to a new key appends. *)

Module Dict.
Section WithValue.
Context {V : Type}.

Definition t : Type := list (string * V).

Definition empty : t := [].

Fixpoint get (k : string) (d : t) : option V :=
  match d with
  | [] => None
  | (k', v) :: d' => if String.eqb k k' then Some v else get k d'
  end.

Fixpoint set (k : string) (v : V) (d : t) : t :=
  match d with
  | [] => [(k, v)]
  | (k', v') :: d' =>
      if String.eqb k k' then (k', v) :: d' else (k', v') :: set k v d'
  end.

Definition keys (d : t) : list string := map fst d.

Definition values (d : t) : list V := map snd d.

Definition len (d : t) : Z := Z.of_nat (List.length d).

End WithValue.
Arguments t : clear implicits.
End Dict.

(** ** Records of the application *)

Module Ticket.
(** A ticket dictionary of [tickets_db].  The key ["scratched_at"] is absent
    until the ticket is scratched. *)
Record t := mk
  { id : string;
    payment_id : string;
    price : float;
    prize : Outcome.t;
    created_at : string;
    scratched : bool;
    scratched_at : option string }.
End Ticket.

Module Payment.
(** An entry of [payments_db]. *)
Record t := mk
  { payment_id : string;
    amount : float;
    status : string;
    created_at : string }.
End Payment.

Module Transaction.
(** An entry of [MercadoPagoSimulator.transactions]. *)
Record t := mk
  { id : string;
    status : string;
    status_detail : string;
    transaction_amount : float;
    payment_method_id : string;
    date_created : string;
    date_approved : option string;
    payer : Dict.t string;
    metadata : Dict.t string }.
End Transaction.

Module MPPaymentData.
(** The dictionary [mp_payment_data] that the endpoint hands to the simulator;
    all four keys are always present. *)
Record t := mk
  { amount : float;
    payment_method : string;
    payer : Dict.t string;
    metadata : Dict.t string }.
End MPPaymentData.

Module MPResult.
(** The dictionary returned by [MercadoPagoSimulator.process_payment]. *)
Record t := mk
  { id : string;
    status : string;
    status_detail : string;
    message : string;
    transaction_amount : float }.
End MPResult.

Module Scenario.
(** An entry of [failure_scenarios]. *)
Record t := mk { status : string; detail : string; message : string }.
End Scenario.

Module PaymentRequest.
(** [class PaymentRequest(BaseModel)]; [payment_data] is never read. *)
Record t := mk
  { amount : float;
    payment_method : string;
    payment_data : Dict.t string }.
End PaymentRequest.

Module PaymentResponse.
(** [class PaymentResponse(BaseModel)]. *)
Record t := mk
  { success : bool;
    payment_id : string;
    status : string;
    message : string;
    ticket_id : option string }.
End PaymentResponse.

Module ScratchResponse.
(** The dictionary returned by [scratch_ticket]. *)
Record t := mk { ticket_id : string; prize : Outcome.t; message : string }.
End ScratchResponse.

Module Statistics.
(** The dictionary returned by [get_statistics]. *)
Record t := mk
  { total_tickets : Z;
    total_payments : float;
    total_prizes : Z;
    winners_count : Z;
    win_rate : float;
    house_edge : float }.
End Statistics.

(** [HTTPException(status_code=.., detail=..)]. *)
Record HTTPException := mkHTTPException { status_code : Z; detail : string }.

(** The outcome of an endpoint: a raised [HTTPException] or a returned value. *)
Definition result (A : Type) : Type := (HTTPException + A)%type.

(** The module-level mutable state: [mp_simulator.transactions], [tickets_db]
    and [payments_db]. *)
Record State := mkState
  { transactions : Dict.t Transaction.t;
    tickets_db : Dict.t Ticket.t;
    payments_db : Dict.t Payment.t }.

Definition initial_state : State := mkState Dict.empty Dict.empty Dict.empty.

(** What one call of [process_payment] draws from the outside world, in the
    order of the calls: the two [uuid.uuid4().hex], the [random.random()] of
    the approval, the index picked by [random.choice] among the four failure
    scenarios, the [random.random()] of the prize, and the values of
    [datetime.now().isoformat()] at each place that asks for one. *)
Record Draws := mkDraws
  { payment_uuid_hex : string;
    approval_random : float;
    failure_choice : nat;
    now_date_created : string;
    now_date_approved : string;
    now_payment_created : string;
    ticket_uuid_hex : string;
    prize_random : float;
    now_prize : string;
    now_ticket_created : string }.

(** ** Simulador do Mercado Pago: [class MercadoPagoSimulator] *)

Module MercadoPagoSimulator.

Definition success_rate : float := 0.85.

Definition failure_scenarios : list Scenario.t :=
  [ Scenario.mk "rejected" "cc_rejected_insufficient_amount" "Saldo insuficiente";
    Scenario.mk "rejected" "cc_rejected_bad_filled_security_code" "Código de segurança inválido";
    Scenario.mk "pending" "pending_waiting_payment" "Aguardando pagamento";
    Scenario.mk "rejected" "cc_rejected_call_for_authorize" "Pagamento não autorizado" ].

(** [random.choice(failure_scenarios)], the picked index being [i < 4]. *)
Definition random_choice (i : nat) : Scenario.t :=
  nth i failure_scenarios
    (Scenario.mk "rejected" "cc_rejected_insufficient_amount" "Saldo insuficiente").

(** [MercadoPagoSimulator.process_payment]: the result and the new
    [self.transactions]. *)
Definition process_payment (payment_data : MPPaymentData.t) (w : Draws)
  (transactions : Dict.t Transaction.t) : MPResult.t * Dict.t Transaction.t :=
  let payment_id := "mp_payment_" ++ substring 0 10 (payment_uuid_hex w) in
  let '(status, status_detail, message) :=
    if (approval_random w <? success_rate)%float then
      ("approved", "accredited", "Pagamento aprovado com sucesso")
    else
      let scenario := random_choice (failure_choice w) in
      (Scenario.status scenario, Scenario.detail scenario, Scenario.message scenario) in
  let transaction :=
    Transaction.mk payment_id status status_detail
      (MPPaymentData.amount payment_data)
      (MPPaymentData.payment_method payment_data)
      (now_date_created w)
      (if String.eqb status "approved" then Some (now_date_approved w) else None)
      (MPPaymentData.payer payment_data)
      (MPPaymentData.metadata payment_data) in
  (MPResult.mk payment_id status status_detail message
     (MPPaymentData.amount payment_data),
   Dict.set payment_id transaction transactions).

(** [MercadoPagoSimulator.get_payment]. *)
Definition get_payment (payment_id : string)
  (transactions : Dict.t Transaction.t) : option Transaction.t :=
  Dict.get payment_id transactions.

End MercadoPagoSimulator.

(** ** The endpoints *)

Definition valid_prices : list Z := [5; 10; 25; 50].

(** The body of the [try] block of [process_payment]: what it raises or
    returns, and the state it leaves. *)
Definition process_payment_try (payment_request : PaymentRequest.t) (w : Draws)
  (st : State) : result PaymentResponse.t * State :=
  let amount := PaymentRequest.amount payment_request in
  if negb (float_in amount valid_prices) then
    (inl (mkHTTPException 400 "Preço de bilhete inválido"), st)
  else
    let mp_payment_data :=
      MPPaymentData.mk amount (PaymentRequest.payment_method payment_request)
        [("email", "test@example.com")] [("game_type", "scratch_lottery")] in
    let '(mp_result, transactions') :=
      MercadoPagoSimulator.process_payment mp_payment_data w (transactions st) in
    let payments_db' :=
      Dict.set (MPResult.id mp_result)
        (Payment.mk (MPResult.id mp_result) amount (MPResult.status mp_result)
           (now_payment_created w))
        (payments_db st) in
    if String.eqb (MPResult.status mp_result) "approved" then
      let ticket_id := "ticket_" ++ substring 0 8 (ticket_uuid_hex w) in
      let prize := PrizeSystem.generate_prize amount (prize_random w) (now_prize w) in
      let ticket :=
        Ticket.mk ticket_id (MPResult.id mp_result) amount prize
          (now_ticket_created w) false None in
      let tickets_db' := Dict.set ticket_id ticket (tickets_db st) in
      (inr (PaymentResponse.mk true (MPResult.id mp_result) "approved"
              "Pagamento aprovado! Bilhete gerado com sucesso." (Some ticket_id)),
       mkState transactions' tickets_db' payments_db')
    else
      (inr (PaymentResponse.mk false (MPResult.id mp_result)
              (MPResult.status mp_result) (MPResult.message mp_result) None),
       mkState transactions' (tickets_db st) payments_db').

(** [POST /api/process-payment]: the [try] block under its
    [except Exception as e] handler.  [HTTPException] is a subclass of
    [Exception], so the handler receives whatever the block raises and raises
    a 500 in its place.  [str_e] is [str] on the caught exception, which the
    framework defines. *)
Definition process_payment (str_e : HTTPException -> string)
  (payment_request : PaymentRequest.t) (w : Draws) (st : State)
  : result PaymentResponse.t * State :=
  match process_payment_try payment_request w st with
  | (inl e, st') => (inl (mkHTTPException 500 ("Erro interno: " ++ str_e e)), st')
  | (inr response, st') => (inr response, st')
  end.

(** [GET /api/ticket/{ticket_id}]. *)
Definition get_ticket (ticket_id : string) (st : State) : result Ticket.t :=
  match Dict.get ticket_id (tickets_db st) with
  | None => inl (mkHTTPException 404 "Bilhete não encontrado")
  | Some ticket => inr ticket
  end.

(** [POST /api/scratch-ticket/{ticket_id}].  The local [ticket] and
    [tickets_db[ticket_id]] are one object: the two item assignments change
    it where it is stored, and the [ticket["prize"]] of the response is read
    from it afterwards. *)
Definition scratch_ticket (ticket_id : string) (now : string) (st : State)
  : result ScratchResponse.t * State :=
  match Dict.get ticket_id (tickets_db st) with
  | None => (inl (mkHTTPException 404 "Bilhete não encontrado"), st)
  | Some ticket =>
      if Ticket.scratched ticket then
        (inl (mkHTTPException 400 "Bilhete já foi raspado"), st)
      else
        let ticket :=
          Ticket.mk (Ticket.id ticket) (Ticket.payment_id ticket)
            (Ticket.price ticket) (Ticket.prize ticket)
            (Ticket.created_at ticket) true (Ticket.scratched_at ticket) in
        let ticket :=
          Ticket.mk (Ticket.id ticket) (Ticket.payment_id ticket)
            (Ticket.price ticket) (Ticket.prize ticket)
            (Ticket.created_at ticket) (Ticket.scratched ticket) (Some now) in
        (inr (ScratchResponse.mk ticket_id (Ticket.prize ticket)
                "Bilhete raspado com sucesso!"),
         mkState (transactions st) (Dict.set ticket_id ticket (tickets_db st))
           (payments_db st))
  end.

(** [GET /api/statistics]. *)
Definition get_statistics (st : State) : Statistics.t :=
  let tickets := Dict.values (tickets_db st) in
  let total_tickets := Dict.len (tickets_db st) in
  let total_payments := py_sum_float (map Ticket.price tickets) in
  let total_prizes :=
    py_sum_int
      (map (fun t => Outcome.amount (Ticket.prize t))
         (filter (fun t => Ticket.scratched t) tickets)) in
  let winners :=
    filter
      (fun t => Ticket.scratched t && (Outcome.amount (Ticket.prize t) >? 0))
      tickets in
  let len_winners := Z.of_nat (List.length winners) in
  Statistics.mk total_tickets total_payments total_prizes len_winners
    (if total_tickets >? 0 then int_truediv len_winners total_tickets
     else 0%float)
    (if (0 <? total_payments)%float then
       ((total_payments - float_of_int total_prizes) / total_payments)%float
     else 0%float).

(** ** The states the program reaches

    From the empty stores, by any sequence of the two endpoints that write. *)
Inductive reachable : State -> Prop :=
| reachable_initial : reachable initial_state
| reachable_process_payment str_e payment_request w st :
    reachable st ->
    reachable (snd (process_payment str_e payment_request w st))
| reachable_scratch_ticket ticket_id now st :
    reachable st ->
    reachable (snd (scratch_ticket ticket_id now st)).

(** * Properties *)

(** ** Binary64 order and sign *)

Module Binary64.

Definition one_SF : spec_float := S754_finite false 4503599627370496 (-52).

(** The largest binary64 number below [1], which is [1 - 2^-53]. *)
Definition below_one : float := 0x1.fffffffffffffp-1.

Definition below_one_SF : spec_float := S754_finite false 9007199254740991 (-53).

(** Zero, a positive finite number or plus infinity: neither negative nor a
    NaN. *)
Definition nonneg_SF (x : spec_float) : Prop :=
  match x with
  | S754_zero _ | S754_infinity false | S754_finite false _ _ => True
  | _ => False
  end.

Definition nonneg (x : float) : Prop := nonneg_SF (Prim2SF x).

Lemma Prim2SF_one : Prim2SF 1 = one_SF.
Proof. vm_compute. reflexivity. Qed.

Lemma Prim2SF_below_one : Prim2SF below_one = below_one_SF.
Proof. vm_compute. reflexivity. Qed.

Lemma digits2_pos_bounds (m : positive) :
  2 ^ (Zpos (digits2_pos m) - 1) <= Zpos m < 2 ^ Zpos (digits2_pos m).
Proof.
  induction m as [m IH | m IH | ]; cbn [digits2_pos].
  - rewrite Pos2Z.inj_succ.
    replace (Z.succ (Z.pos (digits2_pos m)) - 1)
      with (Z.succ (Z.pos (digits2_pos m) - 1)) by lia.
    rewrite !Z.pow_succ_r by lia. lia.
  - rewrite Pos2Z.inj_succ.
    replace (Z.succ (Z.pos (digits2_pos m)) - 1)
      with (Z.succ (Z.pos (digits2_pos m) - 1)) by lia.
    rewrite !Z.pow_succ_r by lia. lia.
  - cbn. lia.
Qed.

(** Above the subnormal range a canonical mantissa has exactly 53 bits. *)
Lemma canonical_digits (m : positive) (e : Z) :
  canonical_mantissa prec emax m e = true -> -1074 < e ->
  Zpos (digits2_pos m) = 53.
Proof.
  unfold canonical_mantissa, fexp, SpecFloat.emin, prec, emax.
  intros C. apply Z.eqb_eq in C. revert C.
  generalize (Zpos (digits2_pos m)). intros d C E. lia.
Qed.

Lemma ltb_one_leb_one (r : float) :
  (r <? 1)%float = true -> (r <=? 1)%float = true.
Proof.
  rewrite FloatAxioms.ltb_spec, FloatAxioms.leb_spec. unfold SFltb, SFleb.
  destruct (SFcompare (Prim2SF r) (Prim2SF 1)) as [[ | | ] | ]; congruence.
Qed.

(** No binary64 number lies strictly between [1 - 2^-53] and [1]. *)
Lemma ltb_one_leb_below_one (r : float) :
  (r <? 1)%float = true -> (r <=? below_one)%float = true.
Proof.
  rewrite FloatAxioms.ltb_spec, FloatAxioms.leb_spec, Prim2SF_one,
    Prim2SF_below_one.
  pose proof (Prim2SF_valid r) as V.
  destruct (Prim2SF r) as [s | s | | s m e].
  - reflexivity.
  - destruct s; [reflexivity | discriminate].
  - discriminate.
  - destruct s; [reflexivity | ].
    unfold valid_binary, bounded in V. apply andb_prop in V. destruct V as [C _].
    pose proof (canonical_digits m e C) as D53.
    pose proof (digits2_pos_bounds m) as D.
    unfold SFltb, SFleb, one_SF, below_one_SF, SFcompare.
    destruct (Z.compare_spec e (-52)) as [E | E | E]; try discriminate.
    + subst e. rewrite Pos.compare_cont_spec. cbn [Pos.switch_Eq].
      destruct (Pos.compare_spec m 4503599627370496) as [M | M | M];
        try discriminate.
      intros _. exfalso.
      rewrite D53 in D by reflexivity.
      change (2 ^ (53 - 1)) with 4503599627370496 in D.
      apply Pos2Z.pos_lt_pos in M. destruct D as [D _].
      exact (Zle_not_lt _ _ D M).
    + intros _.
      destruct (Z.compare_spec e (-53)) as [E' | E' | E']; try reflexivity.
      * subst e. rewrite Pos.compare_cont_spec. cbn [Pos.switch_Eq].
        rewrite D53 in D by reflexivity.
        change (2 ^ 53) with 9007199254740992 in D.
        destruct (Pos.compare_spec m 9007199254740991) as [M | M | M];
          try reflexivity.
        exfalso. apply Pos2Z.pos_lt_pos in M. destruct D as [_ D].
        apply (Z.lt_irrefl 9007199254740992).
        apply Z.le_lt_trans with (Zpos m); [ | exact D ].
        apply Zlt_le_succ in M. exact M.
      * exfalso. clear - E E'. lia.
Qed.

(** The order of binary64 is transitive where no NaN takes part: from
    [x <= y] and [y < z], [z <= x] fails. *)
Lemma SF_leb_ltb_trans (x y z : spec_float) :
  SFleb x y = true -> SFltb y z = true -> SFleb z x = false.
Proof.
  unfold SFleb, SFltb.
  destruct x as [sx | [ | ] | | [ | ] mx ex];
    destruct y as [sy | [ | ] | | [ | ] my ey];
    destruct z as [sz | [ | ] | | [ | ] mz ez];
    cbn [SFcompare]; try discriminate; try reflexivity.
  all: rewrite ?Pos.compare_cont_spec; cbn [Pos.switch_Eq].
  all: destruct (Z.compare_spec ex ey); try discriminate;
       destruct (Z.compare_spec ey ez); try discriminate;
       destruct (Z.compare_spec ez ex); try reflexivity; try lia.
  all: destruct (Pos.compare_spec mx my); cbn [CompOpp]; try discriminate;
       destruct (Pos.compare_spec my mz); cbn [CompOpp]; try discriminate;
       destruct (Pos.compare_spec mz mx); cbn [CompOpp]; try reflexivity;
       try lia.
Qed.

Lemma leb_ltb_trans (x y z : float) :
  (x <=? y)%float = true -> (y <? z)%float = true -> (z <=? x)%float = false.
Proof.
  rewrite !FloatAxioms.leb_spec, FloatAxioms.ltb_spec.
  apply SF_leb_ltb_trans.
Qed.

(** *** Sums of non-negative numbers are non-negative *)

Lemma iter_pos_invariant {A : Type} (P : A -> Prop) (f : A -> A) :
  (forall x, P x -> P (f x)) ->
  forall (p : positive) (x : A), P x -> P (iter_pos f p x).
Proof.
  intros Hf. induction p as [p IH | p IH | ]; intros x Hx; cbn [iter_pos].
  - apply IH, IH, Hf, Hx.
  - apply IH, IH, Hx.
  - apply Hf, Hx.
Qed.

Lemma shr_1_nonneg (mrs : shr_record) :
  0 <= shr_m mrs -> 0 <= shr_m (shr_1 mrs).
Proof.
  destruct mrs as [m r s]. cbn [shr_m].
  destruct m as [ | [p | p | ] | p]; cbn; lia.
Qed.

Lemma shr_fexp_nonneg (m e : Z) (l : location) :
  0 <= m -> 0 <= shr_m (fst (shr_fexp prec emax m e l)).
Proof.
  intros Hm. unfold shr_fexp, shr.
  assert (0 <= shr_m (shr_record_of_loc m l)) as H0
    by (destruct l as [ | [ | | ]]; exact Hm).
  destruct (fexp prec emax (Zdigits2 m + e) - e) as [ | p | p]; cbn [fst];
    try exact H0.
  apply (iter_pos_invariant (fun mrs => 0 <= shr_m mrs)); [ | exact H0].
  exact shr_1_nonneg.
Qed.

Lemma round_nearest_even_nonneg (m : Z) (l : location) :
  0 <= m -> 0 <= round_nearest_even m l.
Proof.
  intros Hm. destruct l as [ | [ | | ]]; cbn [round_nearest_even];
    try destruct (Z.even m); lia.
Qed.

Lemma binary_round_aux_nonneg (m e : Z) (l : location) :
  0 <= m -> nonneg_SF (binary_round_aux prec emax false m e l).
Proof.
  intros Hm. unfold binary_round_aux.
  pose proof (shr_fexp_nonneg m e l Hm) as H1.
  destruct (shr_fexp prec emax m e l) as [mrs' e']. cbn [fst] in H1.
  pose proof (shr_fexp_nonneg _ e' loc_Exact
                (round_nearest_even_nonneg _ (loc_of_shr_record mrs') H1)) as H2.
  destruct (shr_fexp prec emax
              (round_nearest_even (shr_m mrs') (loc_of_shr_record mrs')) e'
              loc_Exact) as [mrs'' e''].
  cbn [fst] in H2.
  destruct (shr_m mrs'') as [ | p | p].
  - exact I.
  - destruct (e'' <=? emax - prec); exact I.
  - exfalso. apply H2. reflexivity.
Qed.

Lemma SFadd_nonneg (x y : spec_float) :
  nonneg_SF x -> nonneg_SF y -> nonneg_SF (SFadd prec emax x y).
Proof.
  destruct x as [sx | [ | ] | | [ | ] mx ex];
    destruct y as [sy | [ | ] | | [ | ] my ey];
    cbn [nonneg_SF]; intros Hx Hy; try contradiction; try exact I.
  - destruct sx, sy; exact I.
  - cbn [SFadd cond_Zopp]. unfold binary_normalize.
    destruct (Z.pos (fst (shl_align mx ex (Z.min ex ey)))
              + Z.pos (fst (shl_align my ey (Z.min ex ey)))) as [ | p | p] eqn:E.
    + exact I.
    + unfold binary_round.
      destruct (shl_align p (Z.min ex ey)
                  (fexp prec emax (Z.pos (digits2_pos p) + Z.min ex ey)))
        as [mz ez].
      apply binary_round_aux_nonneg. apply Pos2Z.is_nonneg.
    + exfalso. pose proof (Pos2Z.neg_is_neg p). 
      pose proof (Pos2Z.is_pos (fst (shl_align mx ex (Z.min ex ey)))).
      pose proof (Pos2Z.is_pos (fst (shl_align my ey (Z.min ex ey)))).
      rewrite <- E in H. clear E. lia.
Qed.

Lemma add_nonneg (x y : float) :
  nonneg x -> nonneg y -> nonneg (x + y)%float.
Proof.
  unfold nonneg. rewrite add_spec. apply SFadd_nonneg.
Qed.

Lemma py_sum_float_nonneg (xs : list float) :
  Forall nonneg xs -> nonneg (py_sum_float xs).
Proof.
  unfold py_sum_float.
  assert (nonneg 0%float) as H0 by exact I.
  revert H0. generalize 0%float as acc.
  induction xs as [ | x xs IH]; intros acc Hacc Hxs; cbn [fold_left].
  - exact Hacc.
  - inversion Hxs as [ | ? ? Hx Hxs']; subst.
    apply IH; [apply add_nonneg; assumption | assumption].
Qed.

(** On a non-negative number the test [x > 0] fails exactly when [x == 0]. *)
Lemma nonneg_ltb_zero (x : float) :
  nonneg x -> (0 <? x)%float = negb (x =? 0)%float.
Proof.
  unfold nonneg. rewrite FloatAxioms.ltb_spec, FloatAxioms.eqb_spec.
  change (Prim2SF 0) with (S754_zero false).
  destruct (Prim2SF x) as [s | [ | ] | | [ | ] m e]; cbn [nonneg_SF];
    intros H; try contradiction; reflexivity.
Qed.

(** A number equal to a positive finite one is that number. *)
Lemma eqb_finite_eq (x y : float) (m : positive) (e : Z) :
  Prim2SF y = S754_finite false m e -> (x =? y)%float = true -> x = y.
Proof.
  intros Hy. rewrite FloatAxioms.eqb_spec, Hy. intros H. apply Prim2SF_inj. rewrite Hy.
  unfold SFeqb, SFcompare in H.
  destruct (Prim2SF x) as [s | [ | ] | | [ | ] m' e']; try discriminate.
  destruct (Z.compare_spec e' e) as [E | E | E]; try discriminate.
  rewrite Pos.compare_cont_spec in H. cbn [Pos.switch_Eq] in H.
  destruct (Pos.compare_spec m' m) as [M | M | M]; try discriminate.
  subst. reflexivity.
Qed.

End Binary64.

(** ** The prize engine *)

Import PrizeSystem.

(** The cumulative probability mass of the first [k] entries of a pool, as
    the loop accumulates it: from [acc], left to right, in binary64. *)
Definition mass_from (acc : float) (prizes : list Prize.t) (k : nat) : float :=
  fold_left PrimFloat.add (map Prize.probability (firstn k prizes)) acc.

Definition cumulative_mass (prizes : list Prize.t) (k : nat) : float :=
  mass_from 0%float prizes k.

(** The mass of the whole pool. *)
Definition final_mass (prizes : list Prize.t) : float :=
  cumulative_mass prizes (List.length prizes).

(** [draw] lies in the range of [random.random()]. *)
Definition unit_interval (draw : float) : Prop :=
  (0 <=? draw)%float = true /\ (draw <? 1)%float = true.

(** The ticket price finds none of the keys of [prize_pools]. *)
Definition unconfigured (ticket_price : float) : Prop :=
  float_in ticket_price (map fst prize_pools) = false.

(** The outcome that [generate_prize] builds from a pool entry. *)
Definition outcome_of (prize : Prize.t) (now : string) : Outcome.t :=
  Outcome.mk (Prize.amount prize) (Prize.message prize)
    (Prize.amount prize >? 0) (_get_prize_tier (Prize.amount prize)) now.

(** The outcome of the code after the loop. *)
Definition fallback_outcome (now : string) : Outcome.t :=
  Outcome.mk 0 "Tente novamente!" false "none" now.

Example generate_prize_5_half :
  generate_prize 5 0.5 "t" = Outcome.mk 0 "Tente novamente!" false "none" "t".
Proof. vm_compute. reflexivity. Qed.

(** In binary64 [0.70 + 0.18] is below [0.88]: at price 10 the draw [0.88]
    passes the second entry. *)
Example generate_prize_10_088 :
  Outcome.amount (generate_prize 10 0.88 "t") = 30.
Proof. vm_compute. reflexivity. Qed.

(** At a boundary: in the pool of price 5 the draw [0.75] selects the first
    entry, the next binary64 number selects the second. *)
Example generate_prize_5_boundary :
  Outcome.amount (generate_prize 5 0.75 "t") = 0
  /\ Outcome.amount (generate_prize 5 (next_up 0.75) "t") = 5
  /\ Outcome.amount (generate_prize 5 (next_down 0.75) "t") = 0.
Proof. vm_compute. repeat split. Qed.

Example generate_prize_50_top :
  generate_prize 50 Binary64.below_one "t"
  = Outcome.mk 2500 "JACKPOT!" true "jackpot" "t".
Proof. vm_compute. reflexivity. Qed.

Lemma prize_pools_getitem_5 :
  In (5, prize_pools_getitem 5) prize_pools.
Proof. left. reflexivity. Qed.

Lemma mass_from_step (acc : float) (prize : Prize.t) (rest : list Prize.t)
  (k : nat) :
  mass_from acc (prize :: rest) (S k)
  = mass_from (acc + Prize.probability prize)%float rest k.
Proof. reflexivity. Qed.

(** What the loop computes: the first entry at which the accumulated mass
    reaches the draw, and nothing when no entry does. *)
Lemma generate_prize_loop_spec (prizes : list Prize.t) :
  forall acc r,
    match generate_prize_loop prizes acc r with
    | Some prize =>
        exists i : nat,
          nth_error prizes i = Some prize
          /\ (r <=? mass_from acc prizes (S i))%float = true
          /\ forall j : nat, (j < i)%nat ->
               (r <=? mass_from acc prizes (S j))%float = false
    | None =>
        forall j : nat, (j < List.length prizes)%nat ->
          (r <=? mass_from acc prizes (S j))%float = false
    end.
Proof.
  induction prizes as [ | prize rest IH]; intros acc r; cbn [generate_prize_loop].
  - intros j Hj. inversion Hj.
  - destruct (r <=? acc + Prize.probability prize)%float eqn:Hit.
    + exists 0%nat. repeat split.
      * exact Hit.
      * intros j Hj. inversion Hj.
    + specialize (IH (acc + Prize.probability prize)%float r).
      destruct (generate_prize_loop rest (acc + Prize.probability prize) r)
        as [found | ].
      * destruct IH as (i & Hnth & Hhit & Hbefore).
        exists (S i). repeat split.
        -- exact Hnth.
        -- rewrite mass_from_step. exact Hhit.
        -- intros [ | j] Hj.
           ++ exact Hit.
           ++ rewrite mass_from_step. apply Hbefore. lia.
      * intros [ | j] Hj.
        -- exact Hit.
        -- rewrite mass_from_step. apply IH. cbn [List.length] in Hj. lia.
Qed.

(** The loop finds an entry as soon as some accumulated mass reaches the draw. *)
Lemma generate_prize_loop_total (prizes : list Prize.t) (acc r : float) (k : nat) :
  (k < List.length prizes)%nat ->
  (r <=? mass_from acc prizes (S k))%float = true ->
  exists prize, generate_prize_loop prizes acc r = Some prize.
Proof.
  intros Hk Hhit. pose proof (generate_prize_loop_spec prizes acc r) as H.
  destruct (generate_prize_loop prizes acc r) as [prize | ].
  - exists prize. reflexivity.
  - rewrite (H k Hk) in Hhit. discriminate.
Qed.

Lemma prize_pools_get_configured (price : Z) (prizes default : list Prize.t) :
  In (price, prizes) prize_pools ->
  prize_pools_get (float_of_int price) default = prizes.
Proof.
  intros H. repeat (destruct H as [H | H]; [inversion H; subst; vm_compute; reflexivity | ]).
  destruct H.
Qed.

(** Every pool has five entries, and its binary64 mass is [1] or the number
    just below. *)
Lemma configured_final_mass (price : Z) (prizes : list Prize.t) :
  In (price, prizes) prize_pools ->
  List.length prizes = 5%nat
  /\ (final_mass prizes = 1%float \/ final_mass prizes = Binary64.below_one).
Proof.
  intros H.
  repeat (destruct H as [H | H];
          [inversion H; subst; split;
           [reflexivity | vm_compute; auto] | ]).
  destruct H.
Qed.

Lemma unit_interval_below_final_mass (price : Z) (prizes : list Prize.t)
  (r : float) :
  In (price, prizes) prize_pools -> (r <? 1)%float = true ->
  (r <=? final_mass prizes)%float = true.
Proof.
  intros H Hr. destruct (configured_final_mass price prizes H) as [_ [E | E]];
    rewrite E.
  - apply Binary64.ltb_one_leb_one, Hr.
  - apply Binary64.ltb_one_leb_below_one, Hr.
Qed.

(** C1. For every configured ticket price and every draw [r] of the unit
    interval, [generate_prize] returns the outcome of the first entry, in
    declared order, whose cumulative probability mass is at least [r]: such
    an entry exists, the mass stays below [r] at every earlier entry, and the
    outcome carries the amount and the message of that entry. *)
Theorem generate_prize_first_entry_reaching_draw
  (price : Z) (prizes : list Prize.t) (r : float) (now : string) :
  In (price, prizes) prize_pools ->
  unit_interval r ->
  exists (i : nat) (prize : Prize.t),
    nth_error prizes i = Some prize
    /\ (r <=? cumulative_mass prizes (S i))%float = true
    /\ (forall j : nat, (j < i)%nat ->
          (r <=? cumulative_mass prizes (S j))%float = false)
    /\ generate_prize (float_of_int price) r now = outcome_of prize now
    /\ Outcome.amount (generate_prize (float_of_int price) r now)
       = Prize.amount prize
    /\ Outcome.message (generate_prize (float_of_int price) r now)
       = Prize.message prize.
Proof.
  intros Hin [_ Hr]. unfold generate_prize.
  rewrite (prize_pools_get_configured price prizes _ Hin).
  pose proof (unit_interval_below_final_mass price prizes r Hin Hr) as Hfinal.
  destruct (configured_final_mass price prizes Hin) as [Hlen _].
  pose proof (generate_prize_loop_spec prizes 0%float r) as Hloop.
  destruct (generate_prize_loop prizes 0 r) as [prize | ].
  - destruct Hloop as (i & Hnth & Hhit & Hbefore).
    exists i, prize. repeat split; assumption.
  - exfalso. unfold final_mass, cumulative_mass in Hfinal.
    rewrite Hlen in Hfinal. rewrite Hloop in Hfinal by lia. discriminate.
Qed.

Lemma generate_prize_first_entry_reaching_draw_witness :
  exists (i : nat) (prize : Prize.t),
    nth_error (prize_pools_getitem 10) i = Some prize
    /\ (0.88 <=? cumulative_mass (prize_pools_getitem 10) (S i))%float = true
    /\ (forall j : nat, (j < i)%nat ->
          (0.88 <=? cumulative_mass (prize_pools_getitem 10) (S j))%float = false)
    /\ generate_prize (float_of_int 10) 0.88 "2024-05-01T12:00:00"
       = outcome_of prize "2024-05-01T12:00:00"
    /\ Outcome.amount (generate_prize (float_of_int 10) 0.88 "2024-05-01T12:00:00")
       = Prize.amount prize
    /\ Outcome.message (generate_prize (float_of_int 10) 0.88 "2024-05-01T12:00:00")
       = Prize.message prize.
Proof.
  apply (generate_prize_first_entry_reaching_draw 10).
  - right. left. reflexivity.
  - split; reflexivity.
Defined.

(** In every pool the accumulated mass never exceeds the final mass. *)
Lemma configured_masses_below_final (price : Z) (prizes : list Prize.t)
  (j : nat) :
  In (price, prizes) prize_pools -> (j < List.length prizes)%nat ->
  (cumulative_mass prizes (S j) <=? final_mass prizes)%float = true.
Proof.
  intros H.
  repeat (destruct H as [H | H];
          [inversion H; subst; cbn [List.length]; intros Hj;
           do 5 (destruct j as [ | j]; [vm_compute; reflexivity | ]); lia | ]).
  destruct H.
Qed.

(** The code after the loop, read on its own: were the value compared in the
    loop above the final cumulative mass of the pool, no entry would be
    selected and the fixed losing outcome would be returned (amount 0,
    "Tente novamente!", not a winner, tier "none").  No value that
    [random.random()] returns is above that mass
    ([draw_never_exceeds_final_mass] below), so this describes code that the
    program does not reach. *)
Lemma generate_prize_above_final_mass
  (price : Z) (prizes : list Prize.t) (r : float) (now : string) :
  In (price, prizes) prize_pools ->
  (final_mass prizes <? r)%float = true ->
  generate_prize_loop prizes 0%float r = None
  /\ generate_prize (float_of_int price) r now
     = Outcome.mk 0 "Tente novamente!" false "none" now.
Proof.
  intros Hin Hr. unfold generate_prize.
  rewrite (prize_pools_get_configured price prizes _ Hin).
  pose proof (generate_prize_loop_spec prizes 0%float r) as Hloop.
  destruct (generate_prize_loop prizes 0 r) as [prize | ].
  - exfalso. destruct Hloop as (i & Hnth & Hhit & _).
    assert (i < List.length prizes)%nat as Hi
      by (apply nth_error_Some; rewrite Hnth; discriminate).
    pose proof (configured_masses_below_final price prizes i Hin Hi) as Hle.
    pose proof (Binary64.leb_ltb_trans _ _ _ Hle Hr) as Hno.
    unfold cumulative_mass in Hno. rewrite Hno in Hhit. discriminate.
  - split; reflexivity.
Qed.

(** For every draw of the unit interval the code after the loop is not
    reached: some entry is always selected. *)
Lemma generate_prize_loop_selects (price : Z) (prizes : list Prize.t)
  (r : float) :
  In (price, prizes) prize_pools -> unit_interval r ->
  exists prize, generate_prize_loop prizes 0%float r = Some prize.
Proof.
  intros Hin [_ Hr].
  destruct (configured_final_mass price prizes Hin) as [Hlen _].
  apply (generate_prize_loop_total prizes 0%float r 4); [lia | ].
  pose proof (unit_interval_below_final_mass price prizes r Hin Hr) as H.
  unfold final_mass, cumulative_mass in H. rewrite Hlen in H. exact H.
Qed.

Lemma SF_leb_not_ltb (x y : spec_float) :
  SFleb x y = true -> SFltb y x = false.
Proof.
  unfold SFleb, SFltb.
  destruct x as [sx | [ | ] | | [ | ] mx ex];
    destruct y as [sy | [ | ] | | [ | ] my ey];
    cbn [SFcompare]; try discriminate; try reflexivity.
  all: rewrite ?Pos.compare_cont_spec; cbn [Pos.switch_Eq].
  all: destruct (Z.compare_spec ex ey); try discriminate;
       destruct (Z.compare_spec ey ex); try reflexivity; try lia.
  all: destruct (Pos.compare_spec mx my); cbn [CompOpp]; try discriminate;
       destruct (Pos.compare_spec my mx); cbn [CompOpp]; try reflexivity;
       try lia.
Qed.

(** For every configured price and every value that [random.random()]
    returns, the draw does not exceed the final cumulative mass of the pool:
    the masses are [1] or [1 - 2^-53], and the largest draw is [1 - 2^-53]. *)
Lemma draw_never_exceeds_final_mass (price : Z) (prizes : list Prize.t)
  (r : float) :
  In (price, prizes) prize_pools -> unit_interval r ->
  (final_mass prizes <? r)%float = false.
Proof.
  intros Hin [_ Hr].
  pose proof (unit_interval_below_final_mass price prizes r Hin Hr) as H.
  rewrite FloatAxioms.leb_spec in H. rewrite FloatAxioms.ltb_spec.
  apply SF_leb_not_ltb, H.
Qed.

Example largest_draw_within_final_masses :
  map (fun kv => (final_mass (snd kv) <? Binary64.below_one)%float) prize_pools
  = [false; false; false; false].
Proof. vm_compute. reflexivity. Qed.

(** C5. For every ticket price that finds no key of the prize table,
    [generate_prize] takes the entry list of the 5 tier as its pool and
    draws the outcome from it, as it does for the price 5; it does not fail. *)
Theorem generate_prize_unconfigured_price
  (ticket_price : float) (r : float) (now : string) :
  unconfigured ticket_price ->
  prize_pools_get ticket_price (prize_pools_getitem 5) = prize_pools_getitem 5
  /\ generate_prize ticket_price r now
     = match generate_prize_loop (prize_pools_getitem 5) 0%float r with
       | Some prize => outcome_of prize now
       | None => fallback_outcome now
       end
  /\ generate_prize ticket_price r now = generate_prize 5 r now.
Proof.
  unfold unconfigured, float_in. cbn [map fst prize_pools existsb].
  intros H.
  repeat (apply orb_false_elim in H; destruct H as [? H]).
  assert (prize_pools_get ticket_price (prize_pools_getitem 5)
          = prize_pools_getitem 5) as Hget.
  { unfold prize_pools_get, prize_pools. cbn [find fst].
    repeat match goal with
           | E : (ticket_price =? ?k)%float = false |- _ => rewrite E; clear E
           end.
    reflexivity. }
  split; [exact Hget | ].
  unfold generate_prize. rewrite Hget.
  split; reflexivity.
Qed.

Lemma generate_prize_unconfigured_price_witness :
  prize_pools_get 7 (prize_pools_getitem 5) = prize_pools_getitem 5
  /\ generate_prize 7 0.95 "2024-05-01T12:00:00"
     = match generate_prize_loop (prize_pools_getitem 5) 0%float 0.95 with
       | Some prize => outcome_of prize "2024-05-01T12:00:00"
       | None => fallback_outcome "2024-05-01T12:00:00"
       end
  /\ generate_prize 7 0.95 "2024-05-01T12:00:00"
     = generate_prize 5 0.95 "2024-05-01T12:00:00".
Proof.
  apply (generate_prize_unconfigured_price 7 0.95 "2024-05-01T12:00:00").
  reflexivity.
Defined.

Example generate_prize_7 :
  generate_prize 7 0.95 "t" = Outcome.mk 15 "Triplicou!" true "minor" "t".
Proof. vm_compute. reflexivity. Qed.

(** The tier of an amount as the specification words it. *)
Definition tier_of_amount (amount : Z) (tier : string) : Prop :=
  (1000 <= amount -> tier = "jackpot")
  /\ (100 <= amount < 1000 -> tier = "major")
  /\ (10 <= amount < 100 -> tier = "minor")
  /\ (0 < amount < 10 -> tier = "consolation")
  /\ (amount <= 0 -> tier = "none").

Lemma _get_prize_tier_spec (amount : Z) :
  tier_of_amount amount (_get_prize_tier amount).
Proof.
  unfold tier_of_amount, _get_prize_tier.
  destruct (Z.geb_spec amount 1000), (Z.geb_spec amount 100),
    (Z.geb_spec amount 10), (Z.gtb_spec amount 0);
    repeat split; intros; try reflexivity; lia.
Qed.

(** C9. For every outcome that [generate_prize] produces, whatever the price
    and the draw and on either return path, the tier is the one the amount
    determines (jackpot from 1000, major from 100, minor from 10,
    consolation above 0, none otherwise) and [is_winner] holds exactly when
    the amount is positive. *)
Theorem generate_prize_tier_and_winner
  (ticket_price : float) (r : float) (now : string) :
  let outcome := generate_prize ticket_price r now in
  tier_of_amount (Outcome.amount outcome) (Outcome.prize_tier outcome)
  /\ Outcome.prize_tier outcome = _get_prize_tier (Outcome.amount outcome)
  /\ (Outcome.is_winner outcome = true <-> 0 < Outcome.amount outcome).
Proof.
  unfold generate_prize.
  destruct (generate_prize_loop _ 0%float r) as [prize | ];
    cbn [Outcome.amount Outcome.prize_tier Outcome.is_winner].
  - split; [apply _get_prize_tier_spec | ].
    split; [reflexivity | ].
    destruct (Z.gtb_spec (Prize.amount prize) 0); split; intros; try lia;
      try reflexivity; discriminate.
  - split; [apply (_get_prize_tier_spec 0) | ].
    split; [reflexivity | ].
    split; intros; [discriminate | lia].
Qed.

(** The sum of a list of exact decimals. *)
Definition decimal_sum (qs : list Q) : Q := fold_left Qplus qs 0%Q.

Definition tolerance : Q := (1 # 1000000000)%Q.

(** C10. For every configured ticket price, the decimal literals that the
    source gives as probabilities, whose binary64 roundings are the
    probabilities of the pool in the same order, sum over the rationals to 1
    exactly, hence to 1 within the tolerance [1e-9]. *)
Theorem probabilities_sum_to_one (price : Z) (prizes : list Prize.t) :
  In (price, prizes) prize_pools ->
  exists literals : list Q,
    In (price, literals) probability_literals
    /\ map Prize.probability prizes = map float_of_decimal literals
    /\ (decimal_sum literals == 1)%Q
    /\ (Qabs (decimal_sum literals - 1) <= tolerance)%Q.
Proof.
  intros H.
  destruct H as [H | [H | [H | [H | []]]]]; inversion H; subst; clear H.
  - exists [0.75; 0.15; 0.08; 0.019; 0.001]%Q.
    split; [left; reflexivity | ].
    split; [vm_compute; reflexivity | ].
    split; [reflexivity | apply Qle_bool_iff; reflexivity].
  - exists [0.70; 0.18; 0.10; 0.019; 0.001]%Q.
    split; [right; left; reflexivity | ].
    split; [vm_compute; reflexivity | ].
    split; [reflexivity | apply Qle_bool_iff; reflexivity].
  - exists [0.65; 0.20; 0.12; 0.029; 0.001]%Q.
    split; [do 2 right; left; reflexivity | ].
    split; [vm_compute; reflexivity | ].
    split; [reflexivity | apply Qle_bool_iff; reflexivity].
  - exists [0.60; 0.22; 0.15; 0.029; 0.001]%Q.
    split; [do 3 right; left; reflexivity | ].
    split; [vm_compute; reflexivity | ].
    split; [reflexivity | apply Qle_bool_iff; reflexivity].
Qed.

Lemma probabilities_sum_to_one_witness :
  exists literals : list Q,
    In (25, literals) probability_literals
    /\ map Prize.probability (prize_pools_getitem 25)
       = map float_of_decimal literals
    /\ (decimal_sum literals == 1)%Q
    /\ (Qabs (decimal_sum literals - 1) <= tolerance)%Q.
Proof.
  apply (probabilities_sum_to_one 25).
  do 2 right. left. reflexivity.
Defined.

(** The configured prices are the keys of both tables. *)
Lemma prize_pools_keys :
  map fst prize_pools = [5; 10; 25; 50]
  /\ map fst probability_literals = [5; 10; 25; 50].
Proof. split; reflexivity. Qed.

(** In binary64 the four masses are [1], [1 - 2^-53], [1] and [1]. *)
Lemma prize_pools_final_masses :
  map (fun kv => final_mass (snd kv)) prize_pools
  = [1; Binary64.below_one; 1; 1]%float.
Proof. vm_compute. reflexivity. Qed.

(** ** Dictionaries *)

Module DictFacts.
Section WithValue.
Context {V : Type}.
Implicit Types (d : Dict.t V) (k : string) (v : V).

Lemma get_set_same k v d : Dict.get k (Dict.set k v d) = Some v.
Proof.
  induction d as [ | [k' v'] d IH]; cbn [Dict.set Dict.get].
  - rewrite String.eqb_refl. reflexivity.
  - destruct (String.eqb k k') eqn:E; cbn [Dict.get]; rewrite E.
    + reflexivity.
    + exact IH.
Qed.

Lemma get_set_other k k' v d :
  k' <> k -> Dict.get k' (Dict.set k v d) = Dict.get k' d.
Proof.
  intros Hne. induction d as [ | [k0 v0] d IH]; cbn [Dict.set Dict.get].
  - apply String.eqb_neq in Hne. rewrite Hne. reflexivity.
  - destruct (String.eqb k k0) eqn:E; cbn [Dict.get].
    + apply String.eqb_eq in E. subst k0.
      apply String.eqb_neq in Hne. rewrite Hne. reflexivity.
    + rewrite IH. reflexivity.
Qed.

(** Assigning to a key that is present keeps the keys and their order. *)
Lemma keys_set_present k v v0 d :
  Dict.get k d = Some v0 -> Dict.keys (Dict.set k v d) = Dict.keys d.
Proof.
  induction d as [ | [k' v'] d IH]; cbn [Dict.set Dict.get]; [discriminate | ].
  destruct (String.eqb k k') eqn:E; intros H.
  - reflexivity.
  - unfold Dict.keys in *. cbn [map fst]. rewrite IH by exact H. reflexivity.
Qed.

Lemma get_in_values k v d : Dict.get k d = Some v -> In v (Dict.values d).
Proof.
  induction d as [ | [k' v'] d IH]; cbn [Dict.get]; [discriminate | ].
  destruct (String.eqb k k'); intros H.
  - inversion H; subst. left. reflexivity.
  - right. apply IH, H.
Qed.

Lemma values_set_Forall (P : V -> Prop) k v d :
  Forall P (Dict.values d) -> P v -> Forall P (Dict.values (Dict.set k v d)).
Proof.
  intros Hd Hv. induction d as [ | [k' v'] d IH]; cbn [Dict.set].
  - constructor; [exact Hv | constructor].
  - unfold Dict.values in *. cbn [map snd] in Hd.
    inversion Hd as [ | ? ? Hv' Hd']; subst.
    destruct (String.eqb k k'); cbn [map snd]; constructor; auto.
Qed.

End WithValue.
End DictFacts.

(** ** The ticket life cycle *)

(** An endpoint fails with the given status code. *)
Definition fails_with {A : Type} (code : Z) (r : result A) : Prop :=
  match r with
  | inl e => status_code e = code
  | inr _ => False
  end.

(** A sequence of calls of [scratch_ticket], each with its ticket id and its
    clock value: the results in order and the final state. *)
Fixpoint scratch_calls (calls : list (string * string)) (st : State)
  : list (result ScratchResponse.t) * State :=
  match calls with
  | [] => ([], st)
  | (ticket_id, now) :: rest =>
      let '(r, st1) := scratch_ticket ticket_id now st in
      let '(rs, st2) := scratch_calls rest st1 in
      (r :: rs, st2)
  end.

Lemma scratch_ticket_not_found (ticket_id now : string) (st : State) :
  Dict.get ticket_id (tickets_db st) = None ->
  scratch_ticket ticket_id now st
  = (inl (mkHTTPException 404 "Bilhete não encontrado"), st).
Proof. intros H. unfold scratch_ticket. rewrite H. reflexivity. Qed.

Lemma scratch_ticket_already_scratched (ticket_id now : string) (st : State)
  (ticket : Ticket.t) :
  Dict.get ticket_id (tickets_db st) = Some ticket ->
  Ticket.scratched ticket = true ->
  scratch_ticket ticket_id now st
  = (inl (mkHTTPException 400 "Bilhete já foi raspado"), st).
Proof. intros H Hs. unfold scratch_ticket. rewrite H, Hs. reflexivity. Qed.

Lemma scratch_ticket_created (ticket_id now : string) (st : State)
  (ticket : Ticket.t) :
  Dict.get ticket_id (tickets_db st) = Some ticket ->
  Ticket.scratched ticket = false ->
  scratch_ticket ticket_id now st
  = (inr (ScratchResponse.mk ticket_id (Ticket.prize ticket)
            "Bilhete raspado com sucesso!"),
     mkState (transactions st)
       (Dict.set ticket_id
          (Ticket.mk (Ticket.id ticket) (Ticket.payment_id ticket)
             (Ticket.price ticket) (Ticket.prize ticket)
             (Ticket.created_at ticket) true (Some now))
          (tickets_db st))
       (payments_db st)).
Proof. intros H Hs. unfold scratch_ticket. rewrite H, Hs. reflexivity. Qed.

(** A call of [scratch_ticket] leaves every scratched ticket as it is. *)
Lemma scratch_ticket_keeps_scratched (ticket_id id' now : string) (st : State)
  (ticket : Ticket.t) :
  Dict.get ticket_id (tickets_db st) = Some ticket ->
  Ticket.scratched ticket = true ->
  Dict.get ticket_id (tickets_db (snd (scratch_ticket id' now st)))
  = Some ticket.
Proof.
  intros H Hs. unfold scratch_ticket.
  destruct (Dict.get id' (tickets_db st)) as [other | ] eqn:Hother;
    [ | exact H].
  destruct (Ticket.scratched other) eqn:Ho; [exact H | ].
  cbn [snd tickets_db].
  rewrite DictFacts.get_set_other; [exact H | ].
  intros ->. rewrite H in Hother. inversion Hother; subst. congruence.
Qed.

(** Once a ticket is scratched, in any later sequence of calls of
    [scratch_ticket] every call on its id fails with 400, and the ticket is
    the same at the end. *)
Lemma scratch_calls_after_scratched (ticket_id : string) (ticket : Ticket.t)
  (calls : list (string * string)) :
  forall st,
    Dict.get ticket_id (tickets_db st) = Some ticket ->
    Ticket.scratched ticket = true ->
    Dict.get ticket_id (tickets_db (snd (scratch_calls calls st))) = Some ticket
    /\ forall (n : nat) (now : string),
         nth_error calls n = Some (ticket_id, now) ->
         exists r, nth_error (fst (scratch_calls calls st)) n = Some r
                   /\ fails_with 400 r.
Proof.
  induction calls as [ | [id' now'] rest IH]; intros st H Hs;
    cbn [scratch_calls].
  - split; [exact H | ]. intros [ | n] now Hn; discriminate.
  - pose proof (scratch_ticket_keeps_scratched ticket_id id' now' st ticket H Hs)
      as Hkeep.
    destruct (scratch_ticket id' now' st) as [r st1] eqn:Hcall.
    cbn [snd] in Hkeep.
    destruct (IH st1 Hkeep Hs) as [Hend Hfail].
    destruct (scratch_calls rest st1) as [rs st2]. cbn [fst snd] in *.
    split; [exact Hend | ].
    intros [ | n] now Hn; cbn [nth_error] in *.
    + inversion Hn; subst. exists r. split; [reflexivity | ].
      rewrite (scratch_ticket_already_scratched ticket_id now st ticket H Hs)
        in Hcall.
      inversion Hcall; subst. reflexivity.
    + apply (Hfail n now Hn).
Qed.

(** *** A run of the program, for the closed instances below *)

Definition sample_str (e : HTTPException) : string := detail e.

Definition sample_request : PaymentRequest.t := PaymentRequest.mk 10 "pix" [].

Definition sample_draws : Draws :=
  mkDraws "3f2a9c4e1b7d4e0fa1b2c3d4e5f60718" 0.5 0
    "2024-05-01T12:00:00.000100" "2024-05-01T12:00:00.000200"
    "2024-05-01T12:00:00.000300"
    "9b1deb4d3b7d4bad9bdd2b0d7b3dcb6d" 0.8
    "2024-05-01T12:00:00.000400" "2024-05-01T12:00:00.000500".

(** One approved purchase at price 10: one ticket, not scratched. *)
Definition sample_state : State :=
  snd (process_payment sample_str sample_request sample_draws initial_state).

Definition sample_ticket : Ticket.t :=
  Ticket.mk "ticket_9b1deb4d" "mp_payment_3f2a9c4e1b"
    10 (Outcome.mk 10 "Recuperou o valor!" true "minor" "2024-05-01T12:00:00.000400")
    "2024-05-01T12:00:00.000500" false None.

Example sample_state_ticket :
  Dict.get "ticket_9b1deb4d" (tickets_db sample_state) = Some sample_ticket.
Proof. vm_compute. reflexivity. Qed.

(** C2. For every ticket id and state: [scratch_ticket] fails with 404 and
    changes nothing when the id is not in the store; it fails with 400 and
    changes nothing, so neither the prize nor [scratched_at], when the ticket
    is already scratched, and so does every call on that id in any later
    sequence of calls; on a ticket that is not yet scratched the call
    succeeds, returns the prize stored at creation and leaves the ticket
    scratched, with that prize and the time of the call, after which every
    further call on the id fails with 400 and leaves the ticket as it is. *)
Theorem scratch_ticket_once (st : State) (ticket_id now : string) :
  (Dict.get ticket_id (tickets_db st) = None ->
   fails_with 404 (fst (scratch_ticket ticket_id now st))
   /\ snd (scratch_ticket ticket_id now st) = st)
  /\ (forall ticket,
        Dict.get ticket_id (tickets_db st) = Some ticket ->
        Ticket.scratched ticket = true ->
        fails_with 400 (fst (scratch_ticket ticket_id now st))
        /\ snd (scratch_ticket ticket_id now st) = st
        /\ forall calls,
             Dict.get ticket_id (tickets_db (snd (scratch_calls calls st)))
             = Some ticket
             /\ forall n now',
                  nth_error calls n = Some (ticket_id, now') ->
                  exists r,
                    nth_error (fst (scratch_calls calls st)) n = Some r
                    /\ fails_with 400 r)
  /\ (forall ticket,
        Dict.get ticket_id (tickets_db st) = Some ticket ->
        Ticket.scratched ticket = false ->
        exists ticket',
          fst (scratch_ticket ticket_id now st)
          = inr (ScratchResponse.mk ticket_id (Ticket.prize ticket)
                   "Bilhete raspado com sucesso!")
          /\ Dict.get ticket_id (tickets_db (snd (scratch_ticket ticket_id now st)))
             = Some ticket'
          /\ Ticket.scratched ticket' = true
          /\ Ticket.prize ticket' = Ticket.prize ticket
          /\ Ticket.scratched_at ticket' = Some now
          /\ forall calls,
               Dict.get ticket_id
                 (tickets_db
                    (snd (scratch_calls calls
                            (snd (scratch_ticket ticket_id now st)))))
               = Some ticket'
               /\ forall n now',
                    nth_error calls n = Some (ticket_id, now') ->
                    exists r,
                      nth_error
                        (fst (scratch_calls calls
                                (snd (scratch_ticket ticket_id now st)))) n
                      = Some r
                      /\ fails_with 400 r).
Proof.
  split; [ | split].
  - intros H. rewrite (scratch_ticket_not_found _ _ _ H).
    split; reflexivity.
  - intros ticket H Hs.
    rewrite (scratch_ticket_already_scratched _ _ _ _ H Hs).
    split; [reflexivity | ]. split; [reflexivity | ].
    intros calls.
    apply (scratch_calls_after_scratched ticket_id ticket calls st H Hs).
  - intros ticket H Hs.
    rewrite (scratch_ticket_created _ _ _ _ H Hs). cbn [fst snd tickets_db].
    eexists. split; [reflexivity | ].
    split; [apply DictFacts.get_set_same | ].
    cbn [Ticket.scratched Ticket.prize Ticket.scratched_at].
    split; [reflexivity | ]. split; [reflexivity | ]. split; [reflexivity | ].
    intros calls.
    apply scratch_calls_after_scratched.
    + cbn [tickets_db]. apply DictFacts.get_set_same.
    + reflexivity.
Qed.

(** The first call on the ticket of the sample state succeeds, the second
    and the third fail with 400. *)
Lemma scratch_ticket_once_witness :
  exists ticket',
    fst (scratch_ticket "ticket_9b1deb4d" "2024-05-01T12:05:00" sample_state)
    = inr (ScratchResponse.mk "ticket_9b1deb4d" (Ticket.prize sample_ticket)
             "Bilhete raspado com sucesso!")
    /\ Dict.get "ticket_9b1deb4d"
         (tickets_db
            (snd (scratch_ticket "ticket_9b1deb4d" "2024-05-01T12:05:00"
                    sample_state)))
       = Some ticket'
    /\ Ticket.scratched ticket' = true
    /\ Ticket.prize ticket' = Ticket.prize sample_ticket
    /\ Ticket.scratched_at ticket' = Some "2024-05-01T12:05:00"
    /\ forall calls,
         Dict.get "ticket_9b1deb4d"
           (tickets_db
              (snd (scratch_calls calls
                      (snd (scratch_ticket "ticket_9b1deb4d"
                              "2024-05-01T12:05:00" sample_state)))))
         = Some ticket'
         /\ forall n now',
              nth_error calls n = Some ("ticket_9b1deb4d", now') ->
              exists r,
                nth_error
                  (fst (scratch_calls calls
                          (snd (scratch_ticket "ticket_9b1deb4d"
                                  "2024-05-01T12:05:00" sample_state)))) n
                = Some r
                /\ fails_with 400 r.
Proof.
  refine (proj2 (proj2 (scratch_ticket_once sample_state "ticket_9b1deb4d"
                          "2024-05-01T12:05:00")) sample_ticket _ _).
  - vm_compute. reflexivity.
  - reflexivity.
Defined.

Example scratch_twice :
  map (fun r => match r with inl e => status_code e | inr _ => 200 end)
    (fst (scratch_calls
            [("ticket_9b1deb4d", "2024-05-01T12:05:00");
             ("ticket_9b1deb4d", "2024-05-01T12:06:00");
             ("ticket_00000000", "2024-05-01T12:07:00")] sample_state))
  = [200; 400; 404].
Proof. vm_compute. reflexivity. Qed.

(** C7. For every stored ticket that is not yet scratched, a call of
    [scratch_ticket] on its id changes, in that ticket, the [scratched] flag
    (to true) and [scratched_at] (to the time of the call) and nothing else:
    id, payment id, price, creation time and prize are those of creation; the
    prize of the response is the stored prize; every other ticket, the order
    of the keys, the payments and the transactions are unchanged. *)
Theorem scratch_ticket_frame (st : State) (ticket_id now : string)
  (ticket : Ticket.t) :
  Dict.get ticket_id (tickets_db st) = Some ticket ->
  Ticket.scratched ticket = false ->
  let st' := snd (scratch_ticket ticket_id now st) in
  (exists response ticket',
     fst (scratch_ticket ticket_id now st) = inr response
     /\ Dict.get ticket_id (tickets_db st') = Some ticket'
     /\ Ticket.scratched ticket' = true
     /\ Ticket.scratched_at ticket' = Some now
     /\ Ticket.id ticket' = Ticket.id ticket
     /\ Ticket.payment_id ticket' = Ticket.payment_id ticket
     /\ Ticket.price ticket' = Ticket.price ticket
     /\ Ticket.created_at ticket' = Ticket.created_at ticket
     /\ Ticket.prize ticket' = Ticket.prize ticket
     /\ ScratchResponse.prize response = Ticket.prize ticket'
     /\ ScratchResponse.ticket_id response = ticket_id)
  /\ (forall other : string,
        other <> ticket_id ->
        Dict.get other (tickets_db st') = Dict.get other (tickets_db st))
  /\ Dict.keys (tickets_db st') = Dict.keys (tickets_db st)
  /\ payments_db st' = payments_db st
  /\ transactions st' = transactions st.
Proof.
  intros H Hs. cbv zeta.
  rewrite (scratch_ticket_created _ _ _ _ H Hs).
  cbn [fst snd tickets_db payments_db transactions].
  split.
  - eexists. eexists. split; [reflexivity | ].
    split; [apply DictFacts.get_set_same | ].
    cbn. repeat split.
  - split.
    + intros other Hne. apply DictFacts.get_set_other. exact Hne.
    + split; [ | split; reflexivity].
      apply (DictFacts.keys_set_present _ _ ticket). exact H.
Qed.

Lemma scratch_ticket_frame_witness :
  let st' := snd (scratch_ticket "ticket_9b1deb4d" "2024-05-01T12:05:00"
                    sample_state) in
  (exists response ticket',
     fst (scratch_ticket "ticket_9b1deb4d" "2024-05-01T12:05:00" sample_state)
     = inr response
     /\ Dict.get "ticket_9b1deb4d" (tickets_db st') = Some ticket'
     /\ Ticket.scratched ticket' = true
     /\ Ticket.scratched_at ticket' = Some "2024-05-01T12:05:00"
     /\ Ticket.id ticket' = Ticket.id sample_ticket
     /\ Ticket.payment_id ticket' = Ticket.payment_id sample_ticket
     /\ Ticket.price ticket' = Ticket.price sample_ticket
     /\ Ticket.created_at ticket' = Ticket.created_at sample_ticket
     /\ Ticket.prize ticket' = Ticket.prize sample_ticket
     /\ ScratchResponse.prize response = Ticket.prize ticket'
     /\ ScratchResponse.ticket_id response = "ticket_9b1deb4d")
  /\ (forall other : string,
        other <> "ticket_9b1deb4d" ->
        Dict.get other (tickets_db st') = Dict.get other (tickets_db sample_state))
  /\ Dict.keys (tickets_db st') = Dict.keys (tickets_db sample_state)
  /\ payments_db st' = payments_db sample_state
  /\ transactions st' = transactions sample_state.
Proof.
  apply (scratch_ticket_frame sample_state "ticket_9b1deb4d"
           "2024-05-01T12:05:00" sample_ticket).
  - vm_compute. reflexivity.
  - reflexivity.
Defined.

(** ** Purchases *)

Lemma process_payment_try_invalid_amount (payment_request : PaymentRequest.t)
  (w : Draws) (st : State) :
  float_in (PaymentRequest.amount payment_request) valid_prices = false ->
  process_payment_try payment_request w st
  = (inl (mkHTTPException 400 "Preço de bilhete inválido"), st).
Proof. intros H. unfold process_payment_try. rewrite H. reflexivity. Qed.

(** What the endpoint does with an amount that is not a ticket price: the
    400 raised inside the [try] block reaches the [except Exception] handler,
    which raises a 500; the state is the one before the call. *)
Lemma process_payment_invalid_amount (str_e : HTTPException -> string)
  (payment_request : PaymentRequest.t) (w : Draws) (st : State) :
  float_in (PaymentRequest.amount payment_request) valid_prices = false ->
  process_payment str_e payment_request w st
  = (inl (mkHTTPException 500
            ("Erro interno: "
             ++ str_e (mkHTTPException 400 "Preço de bilhete inválido"))),
     st).
Proof.
  intros H. unfold process_payment.
  rewrite (process_payment_try_invalid_amount _ _ _ H). reflexivity.
Qed.

(** C3, on the code. A request with amount 7, which is none of 5, 10, 25 and
    50, is answered with status 500, not 400, whatever the state and the
    draws. *)
Theorem process_payment_amount_7_status (str_e : HTTPException -> string)
  (w : Draws) (st : State) :
  let r := process_payment str_e (PaymentRequest.mk 7 "pix" []) w st in
  float_in 7 valid_prices = false
  /\ fst r
     = inl (mkHTTPException 500
              ("Erro interno: "
               ++ str_e (mkHTTPException 400 "Preço de bilhete inválido")))
  /\ fails_with 500 (fst r)
  /\ ~ fails_with 400 (fst r).
Proof.
  cbv zeta. split; [reflexivity | ].
  rewrite process_payment_invalid_amount by reflexivity.
  cbn [fst fails_with status_code].
  split; [reflexivity | ]. split; [reflexivity | ]. discriminate.
Qed.

(** C8. For every request whose amount is none of the configured prices, the
    call leaves the state as it was: no ticket is added to [tickets_db], no
    record to [payments_db], no transaction to the simulator. *)
Theorem process_payment_invalid_amount_no_effect
  (str_e : HTTPException -> string) (payment_request : PaymentRequest.t)
  (w : Draws) (st : State) :
  float_in (PaymentRequest.amount payment_request) valid_prices = false ->
  let st' := snd (process_payment str_e payment_request w st) in
  tickets_db st' = tickets_db st
  /\ payments_db st' = payments_db st
  /\ transactions st' = transactions st
  /\ st' = st.
Proof.
  intros H. cbv zeta. rewrite (process_payment_invalid_amount _ _ _ _ H).
  cbn [snd]. repeat split.
Qed.

Lemma process_payment_invalid_amount_no_effect_witness :
  let st' :=
    snd (process_payment sample_str (PaymentRequest.mk 7 "pix" [])
           sample_draws sample_state) in
  tickets_db st' = tickets_db sample_state
  /\ payments_db st' = payments_db sample_state
  /\ transactions st' = transactions sample_state
  /\ st' = sample_state.
Proof.
  apply (process_payment_invalid_amount_no_effect sample_str
           (PaymentRequest.mk 7 "pix" []) sample_draws sample_state).
  reflexivity.
Defined.

(** A valid amount does reach the stores: the sample purchase records one
    payment and one ticket. *)
Example sample_state_sizes :
  Dict.len (tickets_db sample_state) = 1
  /\ Dict.len (payments_db sample_state) = 1
  /\ Dict.len (transactions sample_state) = 1.
Proof. vm_compute. repeat split. Qed.

(** ** Reachable states *)

Definition valid_price (t : Ticket.t) : Prop :=
  float_in (Ticket.price t) valid_prices = true.

(** Every ticket of a reachable state was sold at a configured price. *)
Lemma reachable_valid_prices (st : State) :
  reachable st -> Forall valid_price (Dict.values (tickets_db st)).
Proof.
  induction 1 as [ | str_e payment_request w st _ IH | ticket_id now st _ IH].
  - constructor.
  - unfold process_payment, process_payment_try.
    destruct (float_in (PaymentRequest.amount payment_request) valid_prices)
      eqn:V; cbn [negb]; [ | exact IH].
    destruct (MercadoPagoSimulator.process_payment _ w (transactions st))
      as [mp_result transactions'].
    destruct (String.eqb (MPResult.status mp_result) "approved");
      cbn [snd tickets_db]; [ | exact IH].
    apply DictFacts.values_set_Forall; [exact IH | exact V].
  - unfold scratch_ticket.
    destruct (Dict.get ticket_id (tickets_db st)) as [ticket | ] eqn:G;
      [ | exact IH].
    destruct (Ticket.scratched ticket); [exact IH | ].
    cbn [snd tickets_db].
    apply DictFacts.values_set_Forall; [exact IH | ].
    unfold valid_price. cbn [Ticket.price].
    apply (proj1 (Forall_forall _ _) IH).
    apply (DictFacts.get_in_values ticket_id). exact G.
Qed.

Lemma valid_price_nonneg (x : float) :
  float_in x valid_prices = true -> Binary64.nonneg x.
Proof.
  unfold float_in, valid_prices. cbn [existsb]. intros H.
  repeat (apply orb_prop in H; destruct H as [H | H]);
    try discriminate H;
    (eapply Binary64.eqb_finite_eq in H; [ | vm_compute; reflexivity]);
    rewrite H; exact I.
Qed.

(** ** Statistics *)

(** The definitions of the specification, over the tickets in store order. *)

(** Σ price over all tickets. *)
Definition total_collected (tickets : list Ticket.t) : float :=
  fold_left (fun acc t => (acc + Ticket.price t)%float) tickets 0%float.

(** Σ prize.amount over scratched tickets only. *)
Fixpoint total_paid_out (tickets : list Ticket.t) : Z :=
  match tickets with
  | [] => 0
  | t :: rest =>
      (if Ticket.scratched t then Outcome.amount (Ticket.prize t) else 0)
      + total_paid_out rest
  end.

(** The count of scratched tickets with prize.amount > 0. *)
Fixpoint winners_count_of (tickets : list Ticket.t) : Z :=
  match tickets with
  | [] => 0
  | t :: rest =>
      (if Ticket.scratched t then
         if 0 <? Outcome.amount (Ticket.prize t) then 1 else 0
       else 0)
      + winners_count_of rest
  end.

(** winners_count / total_tickets, and 0 when no tickets exist. *)
Definition win_rate_of (winners total_tickets : Z) : float :=
  if total_tickets =? 0 then 0%float else int_truediv winners total_tickets.

(** (total_collected − total_paid_out) / total_collected, and 0 when nothing
    was collected. *)
Definition house_edge_of (collected : float) (paid_out : Z) : float :=
  if (collected =? 0)%float then 0%float
  else ((collected - float_of_int paid_out) / collected)%float.

Lemma py_sum_float_prices (tickets : list Ticket.t) :
  py_sum_float (map Ticket.price tickets) = total_collected tickets.
Proof.
  unfold py_sum_float, total_collected. generalize 0%float as acc.
  induction tickets as [ | t rest IH]; intros acc; cbn [map fold_left].
  - reflexivity.
  - apply IH.
Qed.

Lemma py_sum_int_paid_out (tickets : list Ticket.t) :
  py_sum_int
    (map (fun t => Outcome.amount (Ticket.prize t))
       (filter (fun t => Ticket.scratched t) tickets))
  = total_paid_out tickets.
Proof.
  unfold py_sum_int.
  enough (forall acc,
             fold_left Z.add
               (map (fun t => Outcome.amount (Ticket.prize t))
                  (filter (fun t => Ticket.scratched t) tickets)) acc
             = acc + total_paid_out tickets) as H
      by (rewrite H; reflexivity).
  induction tickets as [ | t rest IH]; intros acc;
    cbn [filter total_paid_out].
  - cbn. lia.
  - destruct (Ticket.scratched t); cbn [map fold_left]; rewrite IH; lia.
Qed.

Lemma length_winners (tickets : list Ticket.t) :
  Z.of_nat
    (List.length
       (filter
          (fun t => Ticket.scratched t && (Outcome.amount (Ticket.prize t) >? 0))
          tickets))
  = winners_count_of tickets.
Proof.
  induction tickets as [ | t rest IH]; cbn [filter winners_count_of].
  - reflexivity.
  - rewrite <- IH. rewrite Z.gtb_ltb.
    destruct (Ticket.scratched t), (0 <? Outcome.amount (Ticket.prize t));
      cbn [andb List.length]; lia.
Qed.

(** C6. For every state the program reaches, the summary of
    [get_statistics] is the one the specification defines: the total
    collected is the sum of the prices of all tickets, scratched or not; the
    total paid out is the sum of the prize amounts of the scratched tickets
    only; [winners_count] counts the scratched tickets with a positive prize;
    [win_rate] is [winners_count / total_tickets], and 0 without tickets;
    [house_edge] is (collected − paid out) / collected, and 0 when nothing
    was collected. *)
Theorem get_statistics_summary (st : State) :
  reachable st ->
  let tickets := Dict.values (tickets_db st) in
  let s := get_statistics st in
  Statistics.total_tickets s = Z.of_nat (List.length tickets)
  /\ Statistics.total_payments s = total_collected tickets
  /\ Statistics.total_prizes s = total_paid_out tickets
  /\ Statistics.winners_count s = winners_count_of tickets
  /\ Statistics.win_rate s
     = win_rate_of (winners_count_of tickets) (Z.of_nat (List.length tickets))
  /\ Statistics.house_edge s
     = house_edge_of (total_collected tickets) (total_paid_out tickets)
  /\ (tickets = [] ->
      Statistics.win_rate s = 0%float /\ Statistics.house_edge s = 0%float).
Proof.
  intros Hreach. cbv zeta. unfold get_statistics.
  cbn [Statistics.total_tickets Statistics.total_payments
         Statistics.total_prizes Statistics.winners_count Statistics.win_rate
         Statistics.house_edge].
  rewrite py_sum_float_prices, py_sum_int_paid_out, length_winners.
  assert (Dict.len (tickets_db st)
          = Z.of_nat (List.length (Dict.values (tickets_db st)))) as Hlen
    by (unfold Dict.len, Dict.values; rewrite length_map; reflexivity).
  rewrite Hlen.
  assert (Binary64.nonneg (total_collected (Dict.values (tickets_db st))))
    as Hnonneg.
  { rewrite <- py_sum_float_prices. apply Binary64.py_sum_float_nonneg.
    apply Forall_map.
    apply (Forall_impl _ (fun t => valid_price_nonneg (Ticket.price t))).
    apply reachable_valid_prices, Hreach. }
  repeat (split; [reflexivity | ]).
  split; [ | split].
  - unfold win_rate_of. rewrite Z.gtb_ltb.
    destruct (Z.ltb_spec 0 (Z.of_nat (List.length (Dict.values (tickets_db st)))));
      destruct (Z.eqb_spec (Z.of_nat (List.length (Dict.values (tickets_db st)))) 0);
      try reflexivity; lia.
  - unfold house_edge_of. rewrite (Binary64.nonneg_ltb_zero _ Hnonneg).
    destruct (total_collected (Dict.values (tickets_db st)) =? 0)%float;
      reflexivity.
  - intros Hnil. rewrite Hnil. split; reflexivity.
Qed.

(** After the sample ticket is scratched: one ticket, 10 collected, 10 paid
    out, one winner. *)
Definition sample_scratched : State :=
  snd (scratch_ticket "ticket_9b1deb4d" "2024-05-01T12:05:00" sample_state).

Example sample_statistics :
  get_statistics sample_scratched = Statistics.mk 1 10 10 1 1 0.
Proof. vm_compute. reflexivity. Qed.

Example initial_statistics :
  get_statistics initial_state = Statistics.mk 0 0 0 0 0 0.
Proof. vm_compute. reflexivity. Qed.

Lemma get_statistics_summary_witness :
  let tickets := Dict.values (tickets_db sample_scratched) in
  let s := get_statistics sample_scratched in
  Statistics.total_tickets s = Z.of_nat (List.length tickets)
  /\ Statistics.total_payments s = total_collected tickets
  /\ Statistics.total_prizes s = total_paid_out tickets
  /\ Statistics.winners_count s = winners_count_of tickets
  /\ Statistics.win_rate s
     = win_rate_of (winners_count_of tickets) (Z.of_nat (List.length tickets))
  /\ Statistics.house_edge s
     = house_edge_of (total_collected tickets) (total_paid_out tickets)
  /\ (tickets = [] ->
      Statistics.win_rate s = 0%float /\ Statistics.house_edge s = 0%float).
Proof.
  apply (get_statistics_summary sample_scratched).
  unfold sample_scratched, sample_state.
  apply reachable_scratch_ticket, reachable_process_payment, reachable_initial.
Defined.

(** * The rest of the program *)

Module HealthCheck.
(** The dictionary returned by [health_check]. *)
Record t := mk
  { status : string;
    timestamp : string;
    tickets_count : Z;
    payments_count : Z }.
End HealthCheck.

(** [GET /api/health], with the value of [datetime.now().isoformat()]. *)
Definition health_check (now : string) (st : State) : HealthCheck.t :=
  HealthCheck.mk "healthy" now (Dict.len (tickets_db st))
    (Dict.len (payments_db st)).

(** ** The payment simulator *)

(** Whatever index [random.choice] picks, the scenario is a rejection or a
    pending payment, never an approval. *)
Lemma random_choice_status (i : nat) :
  Scenario.status (MercadoPagoSimulator.random_choice i) = "rejected"
  \/ Scenario.status (MercadoPagoSimulator.random_choice i) = "pending".
Proof.
  unfold MercadoPagoSimulator.random_choice.
  do 4 (destruct i as [ | i]; [cbn; auto | ]).
  destruct i; cbn; auto.
Qed.

Lemma simulator_approved (payment_data : MPPaymentData.t) (w : Draws)
  (ledger : Dict.t Transaction.t) :
  (approval_random w <? MercadoPagoSimulator.success_rate)%float = true ->
  let payment_id := "mp_payment_" ++ substring 0 10 (payment_uuid_hex w) in
  MercadoPagoSimulator.process_payment payment_data w ledger
  = (MPResult.mk payment_id "approved" "accredited"
       "Pagamento aprovado com sucesso" (MPPaymentData.amount payment_data),
     Dict.set payment_id
       (Transaction.mk payment_id "approved" "accredited"
          (MPPaymentData.amount payment_data)
          (MPPaymentData.payment_method payment_data)
          (now_date_created w) (Some (now_date_approved w))
          (MPPaymentData.payer payment_data)
          (MPPaymentData.metadata payment_data))
       ledger).
Proof.
  intros H. unfold MercadoPagoSimulator.process_payment. rewrite H.
  reflexivity.
Qed.

Lemma simulator_not_approved (payment_data : MPPaymentData.t) (w : Draws)
  (ledger : Dict.t Transaction.t) :
  (approval_random w <? MercadoPagoSimulator.success_rate)%float = false ->
  let payment_id := "mp_payment_" ++ substring 0 10 (payment_uuid_hex w) in
  let scenario := MercadoPagoSimulator.random_choice (failure_choice w) in
  MercadoPagoSimulator.process_payment payment_data w ledger
  = (MPResult.mk payment_id (Scenario.status scenario)
       (Scenario.detail scenario) (Scenario.message scenario)
       (MPPaymentData.amount payment_data),
     Dict.set payment_id
       (Transaction.mk payment_id (Scenario.status scenario)
          (Scenario.detail scenario)
          (MPPaymentData.amount payment_data)
          (MPPaymentData.payment_method payment_data)
          (now_date_created w) None
          (MPPaymentData.payer payment_data)
          (MPPaymentData.metadata payment_data))
       ledger).
Proof.
  intros H. cbv zeta. unfold MercadoPagoSimulator.process_payment. rewrite H.
  destruct (random_choice_status (failure_choice w)) as [E | E]; rewrite E;
    reflexivity.
Qed.

(** X4. Whatever the payment data, the draws and the ledger, the simulator
    records the transaction it reports: [get_payment] on the returned id
    finds a transaction with the returned status and detail and the amount of
    the request; the status is "approved" exactly when the approval draw is
    below 0.85, otherwise "rejected" or "pending"; the approval date is
    present exactly when the status is "approved"; and every other id of the
    ledger is found as before. *)
Theorem simulator_records_what_it_reports (payment_data : MPPaymentData.t)
  (w : Draws) (ledger : Dict.t Transaction.t) :
  let reported := fst (MercadoPagoSimulator.process_payment payment_data w ledger) in
  let ledger' := snd (MercadoPagoSimulator.process_payment payment_data w ledger) in
  (exists transaction,
     MercadoPagoSimulator.get_payment (MPResult.id reported) ledger'
     = Some transaction
     /\ Transaction.id transaction = MPResult.id reported
     /\ Transaction.status transaction = MPResult.status reported
     /\ Transaction.status_detail transaction = MPResult.status_detail reported
     /\ Transaction.transaction_amount transaction
        = MPPaymentData.amount payment_data
     /\ (Transaction.date_approved transaction <> None
         <-> Transaction.status transaction = "approved"))
  /\ MPResult.transaction_amount reported = MPPaymentData.amount payment_data
  /\ (MPResult.status reported = "approved"
      <-> (approval_random w <? MercadoPagoSimulator.success_rate)%float = true)
  /\ (MPResult.status reported = "approved"
      \/ MPResult.status reported = "rejected"
      \/ MPResult.status reported = "pending")
  /\ (forall other : string,
        other <> MPResult.id reported ->
        MercadoPagoSimulator.get_payment other ledger'
        = MercadoPagoSimulator.get_payment other ledger).
Proof.
  cbv zeta. unfold MercadoPagoSimulator.get_payment.
  destruct (approval_random w <? MercadoPagoSimulator.success_rate)%float eqn:A.
  - rewrite (simulator_approved payment_data w ledger A).
    cbn [fst snd MPResult.id MPResult.status MPResult.status_detail
           MPResult.transaction_amount].
    split.
    + eexists. split; [apply DictFacts.get_set_same | ].
      cbn. repeat split; intros; try reflexivity; discriminate.
    + split; [reflexivity | ]. split; [split; reflexivity | ].
      split; [left; reflexivity | ].
      intros other Hne. apply DictFacts.get_set_other, Hne.
  - rewrite (simulator_not_approved payment_data w ledger A).
    cbn [fst snd MPResult.id MPResult.status MPResult.status_detail
           MPResult.transaction_amount].
    pose proof (random_choice_status (failure_choice w)) as S.
    split.
    + eexists. split; [apply DictFacts.get_set_same | ].
      cbn [Transaction.id Transaction.status Transaction.status_detail
             Transaction.transaction_amount Transaction.date_approved].
      repeat (split; [reflexivity | ]).
      split; intros H; [contradiction H; reflexivity | ].
      destruct S as [S | S]; rewrite S in H; discriminate.
    + split; [reflexivity | ].
      split; [split; intros H; [ | discriminate] | ].
      * destruct S as [S | S]; rewrite S in H; discriminate.
      * split; [right; exact S | ].
        intros other Hne. apply DictFacts.get_set_other, Hne.
Qed.

(** ** Purchases with a configured price *)

Lemma process_payment_try_approved (payment_request : PaymentRequest.t)
  (w : Draws) (st : State) :
  float_in (PaymentRequest.amount payment_request) valid_prices = true ->
  (approval_random w <? MercadoPagoSimulator.success_rate)%float = true ->
  let amount := PaymentRequest.amount payment_request in
  let payment_id := "mp_payment_" ++ substring 0 10 (payment_uuid_hex w) in
  let ticket_id := "ticket_" ++ substring 0 8 (ticket_uuid_hex w) in
  process_payment_try payment_request w st
  = (inr (PaymentResponse.mk true payment_id "approved"
            "Pagamento aprovado! Bilhete gerado com sucesso." (Some ticket_id)),
     mkState
       (Dict.set payment_id
          (Transaction.mk payment_id "approved" "accredited" amount
             (PaymentRequest.payment_method payment_request)
             (now_date_created w) (Some (now_date_approved w))
             [("email", "test@example.com")]
             [("game_type", "scratch_lottery")])
          (transactions st))
       (Dict.set ticket_id
          (Ticket.mk ticket_id payment_id amount
             (generate_prize amount (prize_random w) (now_prize w))
             (now_ticket_created w) false None)
          (tickets_db st))
       (Dict.set payment_id
          (Payment.mk payment_id amount "approved" (now_payment_created w))
          (payments_db st))).
Proof.
  intros V A. cbv zeta. unfold process_payment_try. rewrite V. cbn [negb].
  rewrite (simulator_approved _ w (transactions st) A). reflexivity.
Qed.

Lemma process_payment_try_not_approved (payment_request : PaymentRequest.t)
  (w : Draws) (st : State) :
  float_in (PaymentRequest.amount payment_request) valid_prices = true ->
  (approval_random w <? MercadoPagoSimulator.success_rate)%float = false ->
  let amount := PaymentRequest.amount payment_request in
  let payment_id := "mp_payment_" ++ substring 0 10 (payment_uuid_hex w) in
  let scenario := MercadoPagoSimulator.random_choice (failure_choice w) in
  process_payment_try payment_request w st
  = (inr (PaymentResponse.mk false payment_id (Scenario.status scenario)
            (Scenario.message scenario) None),
     mkState
       (Dict.set payment_id
          (Transaction.mk payment_id (Scenario.status scenario)
             (Scenario.detail scenario) amount
             (PaymentRequest.payment_method payment_request)
             (now_date_created w) None
             [("email", "test@example.com")]
             [("game_type", "scratch_lottery")])
          (transactions st))
       (tickets_db st)
       (Dict.set payment_id
          (Payment.mk payment_id amount (Scenario.status scenario)
             (now_payment_created w))
          (payments_db st))).
Proof.
  intros V A. cbv zeta. unfold process_payment_try. rewrite V. cbn [negb].
  rewrite (simulator_not_approved _ w (transactions st) A).
  cbn [MPResult.status MPResult.id MPResult.message].
  destruct (random_choice_status (failure_choice w)) as [E | E]; rewrite E;
    reflexivity.
Qed.

(** X1. For every request whose amount is a configured price and whose
    approval draw is below 0.85, the endpoint answers with success, status
    "approved" and a ticket id; [get_ticket] on that id then returns a ticket
    that is not scratched, has the amount as its price, refers to the payment
    of the response and carries the prize that [generate_prize] gives for
    that amount and the prize draw; the payment is recorded as approved; every
    other ticket is found as before. *)
Theorem process_payment_approved (str_e : HTTPException -> string)
  (payment_request : PaymentRequest.t) (w : Draws) (st : State) :
  float_in (PaymentRequest.amount payment_request) valid_prices = true ->
  (approval_random w <? MercadoPagoSimulator.success_rate)%float = true ->
  let amount := PaymentRequest.amount payment_request in
  let payment_id := "mp_payment_" ++ substring 0 10 (payment_uuid_hex w) in
  let ticket_id := "ticket_" ++ substring 0 8 (ticket_uuid_hex w) in
  let st' := snd (process_payment str_e payment_request w st) in
  fst (process_payment str_e payment_request w st)
  = inr (PaymentResponse.mk true payment_id "approved"
           "Pagamento aprovado! Bilhete gerado com sucesso." (Some ticket_id))
  /\ get_ticket ticket_id st'
     = inr (Ticket.mk ticket_id payment_id amount
              (generate_prize amount (prize_random w) (now_prize w))
              (now_ticket_created w) false None)
  /\ Dict.get payment_id (payments_db st')
     = Some (Payment.mk payment_id amount "approved" (now_payment_created w))
  /\ (forall other : string,
        other <> ticket_id -> get_ticket other st' = get_ticket other st).
Proof.
  intros V A. cbv zeta. unfold process_payment.
  rewrite (process_payment_try_approved payment_request w st V A).
  cbn [fst snd]. unfold get_ticket. cbn [tickets_db payments_db].
  split; [reflexivity | ].
  split; [rewrite DictFacts.get_set_same; reflexivity | ].
  split; [apply DictFacts.get_set_same | ].
  intros other Hne. rewrite DictFacts.get_set_other by exact Hne. reflexivity.
Qed.

Lemma process_payment_approved_witness :
  let amount := PaymentRequest.amount sample_request in
  let payment_id := "mp_payment_" ++ substring 0 10 (payment_uuid_hex sample_draws) in
  let ticket_id := "ticket_" ++ substring 0 8 (ticket_uuid_hex sample_draws) in
  let st' := snd (process_payment sample_str sample_request sample_draws initial_state) in
  fst (process_payment sample_str sample_request sample_draws initial_state)
  = inr (PaymentResponse.mk true payment_id "approved"
           "Pagamento aprovado! Bilhete gerado com sucesso." (Some ticket_id))
  /\ get_ticket ticket_id st'
     = inr (Ticket.mk ticket_id payment_id amount
              (generate_prize amount (prize_random sample_draws)
                 (now_prize sample_draws))
              (now_ticket_created sample_draws) false None)
  /\ Dict.get payment_id (payments_db st')
     = Some (Payment.mk payment_id amount "approved"
               (now_payment_created sample_draws))
  /\ (forall other : string,
        other <> ticket_id ->
        get_ticket other st' = get_ticket other initial_state).
Proof.
  apply (process_payment_approved sample_str sample_request sample_draws
           initial_state); reflexivity.
Defined.

(** Draws of a payment that is not approved: the second failure scenario. *)
Definition sample_rejected_draws : Draws :=
  mkDraws "77aa00bb11cc22dd33ee44ff55667788" 0.9 1
    "2024-05-01T13:00:00.000100" "2024-05-01T13:00:00.000200"
    "2024-05-01T13:00:00.000300"
    "0123456789abcdef0123456789abcdef" 0.2
    "2024-05-01T13:00:00.000400" "2024-05-01T13:00:00.000500".

(** X2. For every request whose amount is a configured price and whose
    approval draw is not below 0.85, the endpoint raises nothing: it answers
    with success false, no ticket id, the status ("rejected" or "pending") and
    the message of the failure scenario picked; no ticket is created; the
    payment is recorded with that status and the transaction has no approval
    date. *)
Theorem process_payment_not_approved (str_e : HTTPException -> string)
  (payment_request : PaymentRequest.t) (w : Draws) (st : State) :
  float_in (PaymentRequest.amount payment_request) valid_prices = true ->
  (approval_random w <? MercadoPagoSimulator.success_rate)%float = false ->
  let amount := PaymentRequest.amount payment_request in
  let payment_id := "mp_payment_" ++ substring 0 10 (payment_uuid_hex w) in
  let scenario := MercadoPagoSimulator.random_choice (failure_choice w) in
  let st' := snd (process_payment str_e payment_request w st) in
  fst (process_payment str_e payment_request w st)
  = inr (PaymentResponse.mk false payment_id (Scenario.status scenario)
           (Scenario.message scenario) None)
  /\ (Scenario.status scenario = "rejected"
      \/ Scenario.status scenario = "pending")
  /\ tickets_db st' = tickets_db st
  /\ Dict.get payment_id (payments_db st')
     = Some (Payment.mk payment_id amount (Scenario.status scenario)
               (now_payment_created w))
  /\ (exists transaction,
        MercadoPagoSimulator.get_payment payment_id (transactions st')
        = Some transaction
        /\ Transaction.status transaction = Scenario.status scenario
        /\ Transaction.date_approved transaction = None).
Proof.
  intros V A. cbv zeta. unfold process_payment.
  rewrite (process_payment_try_not_approved payment_request w st V A).
  cbn [fst snd tickets_db payments_db transactions].
  split; [reflexivity | ].
  split; [apply random_choice_status | ].
  split; [reflexivity | ].
  split; [apply DictFacts.get_set_same | ].
  eexists. unfold MercadoPagoSimulator.get_payment.
  split; [apply DictFacts.get_set_same | ]. split; reflexivity.
Qed.

Lemma process_payment_not_approved_witness :
  let amount := PaymentRequest.amount sample_request in
  let payment_id :=
    "mp_payment_" ++ substring 0 10 (payment_uuid_hex sample_rejected_draws) in
  let scenario :=
    MercadoPagoSimulator.random_choice (failure_choice sample_rejected_draws) in
  let st' :=
    snd (process_payment sample_str sample_request sample_rejected_draws
           sample_state) in
  fst (process_payment sample_str sample_request sample_rejected_draws
         sample_state)
  = inr (PaymentResponse.mk false payment_id (Scenario.status scenario)
           (Scenario.message scenario) None)
  /\ (Scenario.status scenario = "rejected"
      \/ Scenario.status scenario = "pending")
  /\ tickets_db st' = tickets_db sample_state
  /\ Dict.get payment_id (payments_db st')
     = Some (Payment.mk payment_id amount (Scenario.status scenario)
               (now_payment_created sample_rejected_draws))
  /\ (exists transaction,
        MercadoPagoSimulator.get_payment payment_id (transactions st')
        = Some transaction
        /\ Transaction.status transaction = Scenario.status scenario
        /\ Transaction.date_approved transaction = None).
Proof.
  apply (process_payment_not_approved sample_str sample_request
           sample_rejected_draws sample_state); reflexivity.
Defined.

(** X3. Whatever the request, the draws and the state, the endpoint raises
    exactly when the amount is not a configured price, and what it raises
    then has status 500; it never answers 400.  When it returns, [success] is
    true exactly when the status is "approved", and exactly then a ticket id
    is present. *)
Theorem process_payment_raises_only_500 (str_e : HTTPException -> string)
  (payment_request : PaymentRequest.t) (w : Draws) (st : State) :
  match fst (process_payment str_e payment_request w st) with
  | inl e =>
      float_in (PaymentRequest.amount payment_request) valid_prices = false
      /\ status_code e = 500
  | inr response =>
      float_in (PaymentRequest.amount payment_request) valid_prices = true
      /\ (PaymentResponse.success response = true
          <-> PaymentResponse.status response = "approved")
      /\ (PaymentResponse.success response = true
          <-> PaymentResponse.ticket_id response <> None)
  end.
Proof.
  destruct (float_in (PaymentRequest.amount payment_request) valid_prices)
    eqn:V.
  - unfold process_payment.
    destruct (approval_random w <? MercadoPagoSimulator.success_rate)%float
      eqn:A.
    + rewrite (process_payment_try_approved payment_request w st V A).
      cbn. split; [reflexivity | ].
      split; split; intros; try reflexivity; discriminate.
    + rewrite (process_payment_try_not_approved payment_request w st V A).
      cbn [fst PaymentResponse.success PaymentResponse.status
             PaymentResponse.ticket_id].
      split; [reflexivity | ].
      split; split; intros H; try discriminate H.
      * destruct (random_choice_status (failure_choice w)) as [E | E];
          rewrite E in H; discriminate.
      * contradiction H; reflexivity.
  - rewrite (process_payment_invalid_amount str_e payment_request w st V).
    cbn. split; reflexivity.
Qed.

(** ** More on the prize engine *)

Lemma SF_leb_trans (x y z : spec_float) :
  SFleb x y = true -> SFleb y z = true -> SFleb x z = true.
Proof.
  unfold SFleb.
  destruct x as [sx | [ | ] | | [ | ] mx ex];
    destruct y as [sy | [ | ] | | [ | ] my ey];
    destruct z as [sz | [ | ] | | [ | ] mz ez];
    cbn [SFcompare]; try discriminate; try reflexivity.
  all: rewrite ?Pos.compare_cont_spec; cbn [Pos.switch_Eq].
  all: destruct (Z.compare_spec ex ey); try discriminate;
       destruct (Z.compare_spec ey ez); try discriminate;
       destruct (Z.compare_spec ex ez); try reflexivity; try lia.
  all: destruct (Pos.compare_spec mx my); cbn [CompOpp]; try discriminate;
       destruct (Pos.compare_spec my mz); cbn [CompOpp]; try discriminate;
       destruct (Pos.compare_spec mx mz); cbn [CompOpp]; try reflexivity;
       try lia.
Qed.

Lemma leb_trans (x y z : float) :
  (x <=? y)%float = true -> (y <=? z)%float = true -> (x <=? z)%float = true.
Proof. rewrite !FloatAxioms.leb_spec. apply SF_leb_trans. Qed.

(** The shape of every pool: the first entry is the losing one, with amount 0,
    and its probability is the mass the loop holds after it; every later entry
    has a positive amount; no amount exceeds fifty times the price; the
    amounts do not decrease along the pool. *)
Lemma configured_pool_shape (price : Z) (prizes : list Prize.t) :
  In (price, prizes) prize_pools ->
  (exists first rest,
     prizes = first :: rest
     /\ Prize.amount first = 0
     /\ cumulative_mass prizes 1 = Prize.probability first
     /\ Forall (fun prize => 0 < Prize.amount prize) rest)
  /\ Forall (fun prize => 0 <= Prize.amount prize <= 50 * price) prizes
  /\ (forall i j a b,
        nth_error prizes i = Some a -> nth_error prizes j = Some b ->
        (i <= j)%nat -> Prize.amount a <= Prize.amount b).
Proof.
  intros H.
  destruct H as [H | [H | [H | [H | []]]]]; inversion H; subst; clear H.
  all: split;
    [ eexists; eexists; split; [reflexivity | ];
      split; [reflexivity | ]; split; [vm_compute; reflexivity | ];
      repeat constructor
    | split;
      [ repeat constructor; cbn; lia
      | intros i j a b Hi Hj Hij;
        do 5 (destruct i as [ | i];
              [ do 5 (destruct j as [ | j];
                      [ cbn in Hi, Hj; inversion Hi; inversion Hj; subst;
                        cbn; lia | ]);
                destruct j; discriminate Hj | ]);
        destruct i; discriminate Hi ] ].
Qed.

(** For a draw below [1] the loop selects an entry of the pool. *)
Lemma generate_prize_loop_selected (price : Z) (prizes : list Prize.t)
  (r : float) :
  In (price, prizes) prize_pools -> (r <? 1)%float = true ->
  exists i prize,
    generate_prize_loop prizes 0%float r = Some prize
    /\ nth_error prizes i = Some prize
    /\ (r <=? cumulative_mass prizes (S i))%float = true
    /\ forall j : nat, (j < i)%nat ->
         (r <=? cumulative_mass prizes (S j))%float = false.
Proof.
  intros Hin Hr.
  destruct (configured_final_mass price prizes Hin) as [Hlen _].
  pose proof (unit_interval_below_final_mass price prizes r Hin Hr) as Hfinal.
  unfold final_mass, cumulative_mass in Hfinal. rewrite Hlen in Hfinal.
  pose proof (generate_prize_loop_spec prizes 0%float r) as Hloop.
  destruct (generate_prize_loop prizes 0 r) as [prize | ].
  - destruct Hloop as (i & Hnth & Hhit & Hbefore).
    exists i, prize. repeat split; assumption.
  - rewrite Hloop in Hfinal by lia. discriminate.
Qed.

(** X5. For every configured price and every draw whatsoever (in the unit
    interval or not, NaN included), the amount of the outcome is one of the
    amounts of the pool of that price, and lies between 0 and fifty times the
    price. *)
Theorem generate_prize_amount_in_pool (price : Z) (prizes : list Prize.t)
  (r : float) (now : string) :
  In (price, prizes) prize_pools ->
  In (Outcome.amount (generate_prize (float_of_int price) r now))
    (map Prize.amount prizes)
  /\ 0 <= Outcome.amount (generate_prize (float_of_int price) r now)
     <= 50 * price.
Proof.
  intros Hin.
  destruct (configured_pool_shape price prizes Hin)
    as ((first & rest & Hshape & Hzero & _ & _) & Hbound & _).
  assert (In (Outcome.amount (generate_prize (float_of_int price) r now))
            (map Prize.amount prizes)) as Hmem.
  { unfold generate_prize.
    rewrite (prize_pools_get_configured price prizes _ Hin).
    pose proof (generate_prize_loop_spec prizes 0%float r) as Hloop.
    destruct (generate_prize_loop prizes 0 r) as [prize | ];
      cbn [Outcome.amount].
    - destruct Hloop as (i & Hnth & _). apply in_map.
      apply (nth_error_In _ _ Hnth).
    - rewrite Hshape. left. exact Hzero. }
  split; [exact Hmem | ].
  apply in_map_iff in Hmem. destruct Hmem as (prize & Heq & Hprize).
  rewrite <- Heq. apply (proj1 (Forall_forall _ _) Hbound). exact Hprize.
Qed.

Lemma generate_prize_amount_in_pool_witness :
  In (Outcome.amount (generate_prize (float_of_int 25) 0.97 "2024-05-01T12:00:00"))
    (map Prize.amount (prize_pools_getitem 25))
  /\ 0 <= Outcome.amount (generate_prize (float_of_int 25) 0.97 "2024-05-01T12:00:00")
     <= 50 * 25.
Proof.
  apply (generate_prize_amount_in_pool 25).
  do 2 right. left. reflexivity.
Defined.

(** X6. For every configured price and every draw of the unit interval, the
    outcome is a winner exactly when the draw exceeds the probability of the
    first entry of the pool, the losing entry: at or below it the amount is 0. *)
Theorem generate_prize_wins_above_losing_mass (price : Z)
  (prizes : list Prize.t) (r : float) (now : string) :
  In (price, prizes) prize_pools ->
  unit_interval r ->
  exists first rest,
    prizes = first :: rest
    /\ Prize.amount first = 0
    /\ Outcome.is_winner (generate_prize (float_of_int price) r now)
       = negb (r <=? Prize.probability first)%float
    /\ ((r <=? Prize.probability first)%float = true ->
        Outcome.amount (generate_prize (float_of_int price) r now) = 0).
Proof.
  intros Hin [_ Hr].
  destruct (configured_pool_shape price prizes Hin)
    as ((first & rest & Hshape & Hzero & Hmass & Hrest) & _ & _).
  exists first, rest. split; [exact Hshape | ]. split; [exact Hzero | ].
  destruct (generate_prize_loop_selected price prizes r Hin Hr)
    as (i & prize & Hloop & Hnth & Hhit & Hbefore).
  unfold generate_prize.
  rewrite (prize_pools_get_configured price prizes _ Hin), Hloop.
  cbn [Outcome.is_winner Outcome.amount]. rewrite <- Hmass.
  destruct i as [ | i].
  - rewrite Hhit. rewrite Hshape in Hnth. cbn in Hnth.
    inversion Hnth; subst prize. rewrite Hzero. split; reflexivity.
  - rewrite (Hbefore 0%nat) by lia. cbn [negb].
    rewrite Hshape in Hnth. cbn [nth_error] in Hnth.
    apply nth_error_In in Hnth.
    pose proof (proj1 (Forall_forall _ _) Hrest prize Hnth) as Hpos.
    cbv beta in Hpos.
    split; [ | discriminate].
    destruct (Z.gtb_spec (Prize.amount prize) 0); [reflexivity | lia].
Qed.

Lemma generate_prize_wins_above_losing_mass_witness :
  exists first rest,
    prize_pools_getitem 50 = first :: rest
    /\ Prize.amount first = 0
    /\ Outcome.is_winner
         (generate_prize (float_of_int 50) 0.61 "2024-05-01T12:00:00")
       = negb (0.61 <=? Prize.probability first)%float
    /\ ((0.61 <=? Prize.probability first)%float = true ->
        Outcome.amount
          (generate_prize (float_of_int 50) 0.61 "2024-05-01T12:00:00") = 0).
Proof.
  apply (generate_prize_wins_above_losing_mass 50).
  - do 3 right. left. reflexivity.
  - split; reflexivity.
Defined.

(** X7. For every configured price, a higher draw never gives a smaller
    prize: if [r1 <= r2] and [r2] is below 1, the amount for [r1] is at most
    the amount for [r2]. *)
Theorem generate_prize_monotone (price : Z) (prizes : list Prize.t)
  (r1 r2 : float) (now1 now2 : string) :
  In (price, prizes) prize_pools ->
  (r1 <=? r2)%float = true ->
  (r2 <? 1)%float = true ->
  Outcome.amount (generate_prize (float_of_int price) r1 now1)
  <= Outcome.amount (generate_prize (float_of_int price) r2 now2).
Proof.
  intros Hin H12 H2.
  destruct (configured_pool_shape price prizes Hin) as (_ & _ & Hsorted).
  destruct (generate_prize_loop_selected price prizes r2 Hin H2)
    as (i2 & prize2 & Hloop2 & Hnth2 & Hhit2 & _).
  pose proof (leb_trans _ _ _ H12 Hhit2) as Hhit1.
  assert (i2 < List.length prizes)%nat as Hi2
    by (apply nth_error_Some; rewrite Hnth2; discriminate).
  pose proof (generate_prize_loop_spec prizes 0%float r1) as Hloop1.
  destruct (generate_prize_loop_total prizes 0%float r1 i2 Hi2 Hhit1)
    as (prize1 & Hsel1).
  rewrite Hsel1 in Hloop1. destruct Hloop1 as (i1 & Hnth1 & _ & Hbefore1).
  unfold generate_prize.
  rewrite (prize_pools_get_configured price prizes _ Hin), Hsel1, Hloop2.
  cbn [Outcome.amount].
  apply (Hsorted i1 i2 prize1 prize2 Hnth1 Hnth2).
  destruct (Nat.le_gt_cases i1 i2) as [Hle | Hgt]; [exact Hle | ].
  unfold cumulative_mass in Hhit1. rewrite (Hbefore1 i2 Hgt) in Hhit1.
  discriminate.
Qed.

Lemma generate_prize_monotone_witness :
  Outcome.amount (generate_prize (float_of_int 10) 0.5 "2024-05-01T12:00:00")
  <= Outcome.amount (generate_prize (float_of_int 10) 0.995 "2024-05-01T12:01:00").
Proof.
  apply (generate_prize_monotone 10 (prize_pools_getitem 10)).
  - right. left. reflexivity.
  - reflexivity.
  - reflexivity.
Defined.

Example generate_prize_monotone_values :
  Outcome.amount (generate_prize 10 0.5 "t") = 0
  /\ Outcome.amount (generate_prize 10 0.995 "t") = 100.
Proof. vm_compute. split; reflexivity. Qed.

(** ** Invariants of the stores *)

Module DictEntries.
Section WithValue.
Context {V : Type}.
Implicit Types (d : Dict.t V) (k : string) (v : V).

Lemma get_in k v d : Dict.get k d = Some v -> In (k, v) d.
Proof.
  induction d as [ | [k' v'] d IH]; cbn [Dict.get]; [discriminate | ].
  destruct (String.eqb_spec k k') as [E | E]; intros H.
  - inversion H; subst. left. reflexivity.
  - right. apply IH, H.
Qed.

Lemma set_Forall (P : string * V -> Prop) k v d :
  Forall P d -> P (k, v) -> Forall P (Dict.set k v d).
Proof.
  intros Hd Hv. induction d as [ | [k' v'] d IH]; cbn [Dict.set].
  - constructor; [exact Hv | constructor].
  - inversion Hd as [ | ? ? Hkv Hd']; subst.
    destruct (String.eqb_spec k k') as [E | E].
    + subst k'. constructor; assumption.
    + constructor; [exact Hkv | apply IH, Hd'].
Qed.

Lemma get_set_present k k' v d :
  Dict.get k d <> None -> Dict.get k (Dict.set k' v d) <> None.
Proof.
  intros H. destruct (String.eqb_spec k k') as [E | E].
  - subst k'. rewrite DictFacts.get_set_same. discriminate.
  - rewrite DictFacts.get_set_other by exact E. exact H.
Qed.

(** Assigning to a key that is absent appends the value at the end. *)
Lemma values_set_absent k v d :
  Dict.get k d = None ->
  Dict.values (Dict.set k v d) = (Dict.values d ++ [v])%list.
Proof.
  induction d as [ | [k' v'] d IH]; cbn [Dict.get Dict.set]; [reflexivity | ].
  destruct (String.eqb k k'); [discriminate | ]. intros H.
  unfold Dict.values in *. cbn [map snd app]. rewrite IH by exact H.
  reflexivity.
Qed.

(** A dictionary never shrinks under assignment, and grows by one entry at
    most. *)
Lemma len_set k v d :
  Dict.len (Dict.set k v d)
  = match Dict.get k d with
    | Some _ => Dict.len d
    | None => Dict.len d + 1
    end.
Proof.
  unfold Dict.len.
  induction d as [ | [k' v'] d IH]; cbn [Dict.get Dict.set]; [reflexivity | ].
  destruct (String.eqb k k'); [reflexivity | ].
  cbn [List.length]. rewrite !Nat2Z.inj_succ, IH.
  destruct (Dict.get k d); lia.
Qed.

End WithValue.
End DictEntries.

(** What holds of a ticket stored under the key [key]. *)
Definition ticket_invariant (key : string) (t : Ticket.t) : Prop :=
  Ticket.id t = key
  /\ (Ticket.scratched t = true <-> Ticket.scratched_at t <> None)
  /\ float_in (Ticket.price t) valid_prices = true
  /\ exists r now, Ticket.prize t = generate_prize (Ticket.price t) r now.

(** What holds of the payment record and of the transaction of one id. *)
Definition ledger_invariant (key : string) (p : option Payment.t)
  (tr : option Transaction.t) : Prop :=
  match p, tr with
  | Some p, Some tr =>
      Payment.payment_id p = key
      /\ Transaction.id tr = key
      /\ Payment.status p = Transaction.status tr
      /\ Payment.amount p = Transaction.transaction_amount tr
      /\ float_in (Payment.amount p) valid_prices = true
      /\ (Transaction.status tr = "approved"
          \/ Transaction.status tr = "rejected"
          \/ Transaction.status tr = "pending")
      /\ (Transaction.date_approved tr <> None
          <-> Transaction.status tr = "approved")
  | None, None => True
  | _, _ => False
  end.

Definition state_invariant (st : State) : Prop :=
  Forall (fun kv => ticket_invariant (fst kv) (snd kv)) (tickets_db st)
  /\ (forall key,
        ledger_invariant key (Dict.get key (payments_db st))
          (Dict.get key (transactions st)))
  /\ (forall key t,
        Dict.get key (tickets_db st) = Some t ->
        Dict.get (Ticket.payment_id t) (payments_db st) <> None).

Lemma process_payment_state (str_e : HTTPException -> string)
  (payment_request : PaymentRequest.t) (w : Draws) (st : State) :
  snd (process_payment str_e payment_request w st)
  = snd (process_payment_try payment_request w st).
Proof.
  unfold process_payment.
  destruct (process_payment_try payment_request w st) as [[e | r] st'];
    reflexivity.
Qed.

Lemma ledger_invariant_set (pid : string) (p : Payment.t) (tr : Transaction.t)
  (payments : Dict.t Payment.t) (ledger : Dict.t Transaction.t) :
  (forall key, ledger_invariant key (Dict.get key payments) (Dict.get key ledger)) ->
  ledger_invariant pid (Some p) (Some tr) ->
  forall key,
    ledger_invariant key (Dict.get key (Dict.set pid p payments))
      (Dict.get key (Dict.set pid tr ledger)).
Proof.
  intros IH Hnew key. destruct (String.eqb_spec key pid) as [E | E].
  - subst key. rewrite !DictFacts.get_set_same. exact Hnew.
  - rewrite !DictFacts.get_set_other by exact E. apply IH.
Qed.

Lemma reachable_state_invariant (st : State) :
  reachable st -> state_invariant st.
Proof.
  induction 1 as [ | str_e payment_request w st _ IH | ticket_id now st _ IH].
  - split; [constructor | ]. split; [intros key; exact I | ].
    intros key t H. discriminate H.
  - rewrite process_payment_state.
    destruct IH as (Htickets & Hledger & Hrefs).
    destruct (float_in (PaymentRequest.amount payment_request) valid_prices)
      eqn:V.
    2: { rewrite (process_payment_try_invalid_amount _ _ _ V).
         repeat split; assumption. }
    destruct (approval_random w <? MercadoPagoSimulator.success_rate)%float
      eqn:A.
    + rewrite (process_payment_try_approved payment_request w st V A).
      cbn [snd]. unfold state_invariant.
      cbn [tickets_db payments_db transactions].
      split; [ | split].
      * apply DictEntries.set_Forall; [exact Htickets | ].
        cbn [fst snd]. unfold ticket_invariant.
        cbn [Ticket.id Ticket.scratched Ticket.scratched_at Ticket.price
               Ticket.prize].
        split; [reflexivity | ].
        split; [split; intros H; [discriminate | contradiction H; reflexivity] | ].
        split; [exact V | ]. eexists. eexists. reflexivity.
      * apply ledger_invariant_set; [exact Hledger | ].
        cbn. repeat split; try reflexivity; try exact V; auto; discriminate.
      * intros key t H.
        destruct (String.eqb_spec key
                    ("ticket_" ++ substring 0 8 (ticket_uuid_hex w))) as [E | E].
        -- subst key. rewrite DictFacts.get_set_same in H.
           inversion H; subst t. cbn [Ticket.payment_id].
           rewrite DictFacts.get_set_same. discriminate.
        -- rewrite DictFacts.get_set_other in H by exact E.
           apply DictEntries.get_set_present. apply (Hrefs key t H).
    + rewrite (process_payment_try_not_approved payment_request w st V A).
      cbn [snd]. unfold state_invariant.
      cbn [tickets_db payments_db transactions].
      split; [exact Htickets | split].
      * apply ledger_invariant_set; [exact Hledger | ].
        pose proof (random_choice_status (failure_choice w)) as S.
        cbn [ledger_invariant Payment.payment_id Payment.status Payment.amount
               Transaction.id Transaction.status
               Transaction.transaction_amount Transaction.date_approved].
        repeat (split; [reflexivity | ]).
        split; [exact V | ]. split; [right; exact S | ].
        split; intros H; [contradiction H; reflexivity | ].
        destruct S as [S | S]; rewrite S in H; discriminate.
      * intros key t H. apply DictEntries.get_set_present.
        apply (Hrefs key t H).
  - destruct IH as (Htickets & Hledger & Hrefs).
    unfold scratch_ticket.
    destruct (Dict.get ticket_id (tickets_db st)) as [ticket | ] eqn:G;
      [ | repeat split; assumption].
    destruct (Ticket.scratched ticket) eqn:S; [repeat split; assumption | ].
    cbn [snd]. unfold state_invariant.
    cbn [tickets_db payments_db transactions].
    pose proof (proj1 (Forall_forall _ _) Htickets _
                  (DictEntries.get_in _ _ _ G)) as (Hid & _ & Hprice & Hprize).
    cbn [fst snd] in Hid, Hprice, Hprize.
    split; [ | split; [exact Hledger | ]].
    + apply DictEntries.set_Forall; [exact Htickets | ].
      cbn [fst snd]. unfold ticket_invariant.
      cbn [Ticket.id Ticket.scratched Ticket.scratched_at Ticket.price
             Ticket.prize].
      split; [exact Hid | ].
      split; [split; intros; [discriminate | reflexivity] | ].
      split; [exact Hprice | exact Hprize].
    + intros key t H.
      destruct (String.eqb_spec key ticket_id) as [E | E].
      * subst key. rewrite DictFacts.get_set_same in H.
        inversion H; subst t. cbn [Ticket.payment_id].
        apply (Hrefs ticket_id ticket G).
      * rewrite DictFacts.get_set_other in H by exact E.
        apply (Hrefs key t H).
Qed.

(** X8. In every state the program reaches, a ticket found under an id
    carries that id, has [scratched_at] exactly when it is scratched, was
    sold at a configured price, and its prize is an outcome of
    [generate_prize] for its own price. *)
Theorem reachable_tickets_well_formed (st : State) (ticket_id : string)
  (t : Ticket.t) :
  reachable st ->
  Dict.get ticket_id (tickets_db st) = Some t ->
  Ticket.id t = ticket_id
  /\ (Ticket.scratched t = true <-> Ticket.scratched_at t <> None)
  /\ float_in (Ticket.price t) valid_prices = true
  /\ exists r now, Ticket.prize t = generate_prize (Ticket.price t) r now.
Proof.
  intros Hreach G.
  destruct (reachable_state_invariant st Hreach) as (Htickets & _ & _).
  exact (proj1 (Forall_forall _ _) Htickets _ (DictEntries.get_in _ _ _ G)).
Qed.

(** The sample ticket once scratched. *)
Definition sample_scratched_ticket : Ticket.t :=
  Ticket.mk "ticket_9b1deb4d" "mp_payment_3f2a9c4e1b" 10
    (Outcome.mk 10 "Recuperou o valor!" true "minor"
       "2024-05-01T12:00:00.000400")
    "2024-05-01T12:00:00.000500" true (Some "2024-05-01T12:05:00").

Lemma reachable_tickets_well_formed_witness :
  Ticket.id sample_scratched_ticket = "ticket_9b1deb4d"
  /\ (Ticket.scratched sample_scratched_ticket = true
      <-> Ticket.scratched_at sample_scratched_ticket <> None)
  /\ float_in (Ticket.price sample_scratched_ticket) valid_prices = true
  /\ exists r now,
       Ticket.prize sample_scratched_ticket
       = generate_prize (Ticket.price sample_scratched_ticket) r now.
Proof.
  apply (reachable_tickets_well_formed sample_scratched "ticket_9b1deb4d"
           sample_scratched_ticket).
  - unfold sample_scratched, sample_state.
    apply reachable_scratch_ticket, reachable_process_payment,
      reachable_initial.
  - vm_compute. reflexivity.
Defined.

(** X9. In every state the program reaches, [payments_db] and the ledger of
    the simulator hold the same ids, and under each id the payment record and
    the transaction carry that id, the same status and the same amount, a
    configured price; the status is "approved", "rejected" or "pending", and
    the transaction has an approval date exactly when it is approved. *)
Theorem reachable_payments_match_ledger (st : State) (key : string) :
  reachable st ->
  (forall p,
     Dict.get key (payments_db st) = Some p ->
     exists tr,
       MercadoPagoSimulator.get_payment key (transactions st) = Some tr
       /\ Payment.payment_id p = key
       /\ Transaction.id tr = key
       /\ Payment.status p = Transaction.status tr
       /\ Payment.amount p = Transaction.transaction_amount tr
       /\ float_in (Payment.amount p) valid_prices = true
       /\ (Transaction.status tr = "approved"
           \/ Transaction.status tr = "rejected"
           \/ Transaction.status tr = "pending")
       /\ (Transaction.date_approved tr <> None
           <-> Transaction.status tr = "approved"))
  /\ (forall tr,
        MercadoPagoSimulator.get_payment key (transactions st) = Some tr ->
        exists p, Dict.get key (payments_db st) = Some p).
Proof.
  intros Hreach.
  destruct (reachable_state_invariant st Hreach) as (_ & Hledger & _).
  specialize (Hledger key). unfold MercadoPagoSimulator.get_payment.
  destruct (Dict.get key (payments_db st)) as [p | ];
    destruct (Dict.get key (transactions st)) as [tr | ];
    cbn [ledger_invariant] in Hledger; try contradiction.
  - split.
    + intros p' E. inversion E; subst p'. exists tr.
      split; [reflexivity | exact Hledger].
    + intros tr' _. exists p. reflexivity.
  - split; intros ? E; discriminate E.
Qed.

Lemma reachable_payments_match_ledger_witness :
  (forall p,
     Dict.get "mp_payment_3f2a9c4e1b" (payments_db sample_state) = Some p ->
     exists tr,
       MercadoPagoSimulator.get_payment "mp_payment_3f2a9c4e1b"
         (transactions sample_state) = Some tr
       /\ Payment.payment_id p = "mp_payment_3f2a9c4e1b"
       /\ Transaction.id tr = "mp_payment_3f2a9c4e1b"
       /\ Payment.status p = Transaction.status tr
       /\ Payment.amount p = Transaction.transaction_amount tr
       /\ float_in (Payment.amount p) valid_prices = true
       /\ (Transaction.status tr = "approved"
           \/ Transaction.status tr = "rejected"
           \/ Transaction.status tr = "pending")
       /\ (Transaction.date_approved tr <> None
           <-> Transaction.status tr = "approved"))
  /\ (forall tr,
        MercadoPagoSimulator.get_payment "mp_payment_3f2a9c4e1b"
          (transactions sample_state) = Some tr ->
        exists p,
          Dict.get "mp_payment_3f2a9c4e1b" (payments_db sample_state) = Some p).
Proof.
  apply (reachable_payments_match_ledger sample_state "mp_payment_3f2a9c4e1b").
  unfold sample_state. apply reachable_process_payment, reachable_initial.
Defined.

Example sample_state_payment :
  Dict.get "mp_payment_3f2a9c4e1b" (payments_db sample_state)
  = Some (Payment.mk "mp_payment_3f2a9c4e1b" 10 "approved"
            "2024-05-01T12:00:00.000300").
Proof. vm_compute. reflexivity. Qed.

(** X10. In every state the program reaches, the payment id of every stored
    ticket is the id of a record of [payments_db] and of a transaction of the
    simulator: no ticket refers to a payment that is not recorded. *)
Theorem reachable_ticket_payment_recorded (st : State) (ticket_id : string)
  (t : Ticket.t) :
  reachable st ->
  Dict.get ticket_id (tickets_db st) = Some t ->
  exists p tr,
    Dict.get (Ticket.payment_id t) (payments_db st) = Some p
    /\ MercadoPagoSimulator.get_payment (Ticket.payment_id t) (transactions st)
       = Some tr
    /\ Payment.payment_id p = Ticket.payment_id t.
Proof.
  intros Hreach G.
  destruct (reachable_state_invariant st Hreach) as (_ & Hledger & Hrefs).
  specialize (Hrefs ticket_id t G). specialize (Hledger (Ticket.payment_id t)).
  unfold MercadoPagoSimulator.get_payment.
  destruct (Dict.get (Ticket.payment_id t) (payments_db st)) as [p | ];
    [ | contradiction Hrefs; reflexivity].
  destruct (Dict.get (Ticket.payment_id t) (transactions st)) as [tr | ];
    cbn [ledger_invariant] in Hledger; [ | contradiction].
  exists p, tr. split; [reflexivity | ]. split; [reflexivity | ].
  apply Hledger.
Qed.

Lemma reachable_ticket_payment_recorded_witness :
  exists p tr,
    Dict.get (Ticket.payment_id sample_ticket) (payments_db sample_state)
    = Some p
    /\ MercadoPagoSimulator.get_payment (Ticket.payment_id sample_ticket)
         (transactions sample_state)
       = Some tr
    /\ Payment.payment_id p = Ticket.payment_id sample_ticket.
Proof.
  apply (reachable_ticket_payment_recorded sample_state "ticket_9b1deb4d"
           sample_ticket).
  - unfold sample_state. apply reachable_process_payment, reachable_initial.
  - vm_compute. reflexivity.
Defined.

(** ** From purchase to reveal *)

(** X11. After an approved purchase, whatever the store held before (also a
    scratched ticket under the same id, the id being eight digits of a uuid
    with no check against the store), [get_ticket] on the id of the response
    shows the prize generated at the purchase, the first [scratch_ticket] on
    that id succeeds and returns that same prize, [get_ticket] then shows the
    ticket scratched with that prize, and a second [scratch_ticket] fails
    with 400. *)
Theorem purchase_then_scratch (str_e : HTTPException -> string)
  (payment_request : PaymentRequest.t) (w : Draws) (st : State)
  (now now' : string) :
  float_in (PaymentRequest.amount payment_request) valid_prices = true ->
  (approval_random w <? MercadoPagoSimulator.success_rate)%float = true ->
  let ticket_id := "ticket_" ++ substring 0 8 (ticket_uuid_hex w) in
  let prize :=
    generate_prize (PaymentRequest.amount payment_request) (prize_random w)
      (now_prize w) in
  let st1 := snd (process_payment str_e payment_request w st) in
  let st2 := snd (scratch_ticket ticket_id now st1) in
  (exists ticket,
     get_ticket ticket_id st1 = inr ticket
     /\ Ticket.prize ticket = prize /\ Ticket.scratched ticket = false)
  /\ fst (scratch_ticket ticket_id now st1)
     = inr (ScratchResponse.mk ticket_id prize "Bilhete raspado com sucesso!")
  /\ (exists ticket,
        get_ticket ticket_id st2 = inr ticket
        /\ Ticket.prize ticket = prize
        /\ Ticket.scratched ticket = true
        /\ Ticket.scratched_at ticket = Some now)
  /\ fails_with 400 (fst (scratch_ticket ticket_id now' st2)).
Proof.
  intros V A. cbv zeta. rewrite process_payment_state.
  rewrite (process_payment_try_approved payment_request w st V A).
  cbn [snd].
  set (ticket_id := "ticket_" ++ substring 0 8 (ticket_uuid_hex w)).
  set (st1 := mkState _ _ _).
  assert (Dict.get ticket_id (tickets_db st1)
          = Some (Ticket.mk ticket_id
                    ("mp_payment_" ++ substring 0 10 (payment_uuid_hex w))
                    (PaymentRequest.amount payment_request)
                    (generate_prize (PaymentRequest.amount payment_request)
                       (prize_random w) (now_prize w))
                    (now_ticket_created w) false None)) as G1
    by (apply DictFacts.get_set_same).
  split.
  - eexists. unfold get_ticket. rewrite G1.
    split; [reflexivity | split; reflexivity].
  - rewrite (scratch_ticket_created ticket_id now st1 _ G1 eq_refl).
    cbn [fst snd Ticket.prize Ticket.id Ticket.payment_id Ticket.price
           Ticket.created_at].
    split; [reflexivity | ].
    set (st2 := mkState _ _ _).
    assert (Dict.get ticket_id (tickets_db st2)
            = Some (Ticket.mk ticket_id
                      ("mp_payment_" ++ substring 0 10 (payment_uuid_hex w))
                      (PaymentRequest.amount payment_request)
                      (generate_prize (PaymentRequest.amount payment_request)
                         (prize_random w) (now_prize w))
                      (now_ticket_created w) true (Some now))) as G2
      by (apply DictFacts.get_set_same).
    split.
    + eexists. unfold get_ticket. rewrite G2.
      split; [reflexivity | repeat split].
    + rewrite (scratch_ticket_already_scratched ticket_id now' st2 _ G2 eq_refl).
      reflexivity.
Qed.

Lemma purchase_then_scratch_witness :
  let ticket_id := "ticket_" ++ substring 0 8 (ticket_uuid_hex sample_draws) in
  let prize :=
    generate_prize (PaymentRequest.amount sample_request)
      (prize_random sample_draws) (now_prize sample_draws) in
  let st1 :=
    snd (process_payment sample_str sample_request sample_draws
           sample_scratched) in
  let st2 := snd (scratch_ticket ticket_id "2024-05-01T12:10:00" st1) in
  (exists ticket,
     get_ticket ticket_id st1 = inr ticket
     /\ Ticket.prize ticket = prize /\ Ticket.scratched ticket = false)
  /\ fst (scratch_ticket ticket_id "2024-05-01T12:10:00" st1)
     = inr (ScratchResponse.mk ticket_id prize "Bilhete raspado com sucesso!")
  /\ (exists ticket,
        get_ticket ticket_id st2 = inr ticket
        /\ Ticket.prize ticket = prize
        /\ Ticket.scratched ticket = true
        /\ Ticket.scratched_at ticket = Some "2024-05-01T12:10:00")
  /\ fails_with 400 (fst (scratch_ticket ticket_id "2024-05-01T12:11:00" st2)).
Proof.
  apply (purchase_then_scratch sample_str sample_request sample_draws
           sample_scratched "2024-05-01T12:10:00" "2024-05-01T12:11:00");
    reflexivity.
Defined.

(** ** Statistics along the life of a ticket *)

Lemma prices_set_present (k : string) (t t' : Ticket.t) (d : Dict.t Ticket.t) :
  Dict.get k d = Some t -> Ticket.price t' = Ticket.price t ->
  map Ticket.price (Dict.values (Dict.set k t' d))
  = map Ticket.price (Dict.values d).
Proof.
  intros G Hp. induction d as [ | [k0 t0] d IH];
    cbn [Dict.get Dict.set] in *; [discriminate | ].
  unfold Dict.values in *.
  destruct (String.eqb k k0); cbn [map snd].
  - inversion G; subst t0. rewrite Hp. reflexivity.
  - rewrite IH by exact G. reflexivity.
Qed.

Lemma paid_out_set_scratched (k : string) (t t' : Ticket.t)
  (d : Dict.t Ticket.t) :
  Dict.get k d = Some t ->
  Ticket.scratched t = false -> Ticket.scratched t' = true ->
  Ticket.prize t' = Ticket.prize t ->
  total_paid_out (Dict.values (Dict.set k t' d))
  = total_paid_out (Dict.values d) + Outcome.amount (Ticket.prize t)
  /\ winners_count_of (Dict.values (Dict.set k t' d))
     = winners_count_of (Dict.values d)
       + (if Outcome.amount (Ticket.prize t) >? 0 then 1 else 0).
Proof.
  intros G Hs Hs' Hp. induction d as [ | [k0 t0] d IH];
    cbn [Dict.get Dict.set] in *; [discriminate | ].
  unfold Dict.values in *.
  destruct (String.eqb k k0); cbn [map snd total_paid_out winners_count_of].
  - inversion G; subst t0. rewrite Hs, Hs', Hp, Z.gtb_ltb.
    destruct (0 <? Outcome.amount (Ticket.prize t)); split; lia.
  - destruct (IH G) as [IH1 IH2]. rewrite IH1, IH2. split; lia.
Qed.

(** X12. A successful [scratch_ticket] changes the statistics in one way
    only: the total of prizes grows by the amount of the prize revealed, and
    the count of winners by one exactly when that amount is positive; the
    number of tickets and the total of payments are the same. *)
Theorem scratch_ticket_statistics (st : State) (ticket_id now : string)
  (ticket : Ticket.t) :
  Dict.get ticket_id (tickets_db st) = Some ticket ->
  Ticket.scratched ticket = false ->
  let s := get_statistics st in
  let s' := get_statistics (snd (scratch_ticket ticket_id now st)) in
  Statistics.total_tickets s' = Statistics.total_tickets s
  /\ Statistics.total_payments s' = Statistics.total_payments s
  /\ Statistics.total_prizes s'
     = Statistics.total_prizes s + Outcome.amount (Ticket.prize ticket)
  /\ Statistics.winners_count s'
     = Statistics.winners_count s
       + (if Outcome.amount (Ticket.prize ticket) >? 0 then 1 else 0).
Proof.
  intros G Hs. cbv zeta.
  rewrite (scratch_ticket_created ticket_id now st ticket G Hs). cbn [snd].
  unfold get_statistics.
  cbn [Statistics.total_tickets Statistics.total_payments
         Statistics.total_prizes Statistics.winners_count tickets_db].
  rewrite !py_sum_int_paid_out, !length_winners.
  destruct (paid_out_set_scratched ticket_id ticket
              (Ticket.mk (Ticket.id ticket) (Ticket.payment_id ticket)
                 (Ticket.price ticket) (Ticket.prize ticket)
                 (Ticket.created_at ticket) true (Some now))
              (tickets_db st) G Hs eq_refl eq_refl) as [Hpaid Hwin].
  split; [rewrite DictEntries.len_set, G; reflexivity | ].
  split; [rewrite (prices_set_present ticket_id ticket
                     (Ticket.mk (Ticket.id ticket) (Ticket.payment_id ticket)
                        (Ticket.price ticket) (Ticket.prize ticket)
                        (Ticket.created_at ticket) true (Some now))
                     (tickets_db st) G eq_refl);
          reflexivity | ].
  split; [exact Hpaid | exact Hwin].
Qed.

Lemma scratch_ticket_statistics_witness :
  let s := get_statistics sample_state in
  let s' :=
    get_statistics
      (snd (scratch_ticket "ticket_9b1deb4d" "2024-05-01T12:05:00"
              sample_state)) in
  Statistics.total_tickets s' = Statistics.total_tickets s
  /\ Statistics.total_payments s' = Statistics.total_payments s
  /\ Statistics.total_prizes s'
     = Statistics.total_prizes s + Outcome.amount (Ticket.prize sample_ticket)
  /\ Statistics.winners_count s'
     = Statistics.winners_count s
       + (if Outcome.amount (Ticket.prize sample_ticket) >? 0 then 1 else 0).
Proof.
  apply (scratch_ticket_statistics sample_state "ticket_9b1deb4d"
           "2024-05-01T12:05:00" sample_ticket).
  - vm_compute. reflexivity.
  - reflexivity.
Defined.

Lemma total_collected_app (tickets : list Ticket.t) (t : Ticket.t) :
  total_collected (tickets ++ [t])
  = (total_collected tickets + Ticket.price t)%float.
Proof. unfold total_collected. rewrite fold_left_app. reflexivity. Qed.

Lemma paid_out_app_unscratched (tickets : list Ticket.t) (t : Ticket.t) :
  Ticket.scratched t = false ->
  total_paid_out (tickets ++ [t]) = total_paid_out tickets
  /\ winners_count_of (tickets ++ [t]) = winners_count_of tickets.
Proof.
  intros Hs. induction tickets as [ | t0 rest [IH1 IH2]];
    cbn [app total_paid_out winners_count_of].
  - rewrite Hs. split; reflexivity.
  - rewrite IH1, IH2. split; reflexivity.
Qed.

(** X13. An approved purchase whose ticket id is not yet in the store adds
    one to the number of tickets and the amount to the total of payments, and
    leaves the total of prizes and the count of winners as they are: a prize
    counts only once its ticket is scratched. *)
Theorem process_payment_statistics (str_e : HTTPException -> string)
  (payment_request : PaymentRequest.t) (w : Draws) (st : State) :
  float_in (PaymentRequest.amount payment_request) valid_prices = true ->
  (approval_random w <? MercadoPagoSimulator.success_rate)%float = true ->
  Dict.get ("ticket_" ++ substring 0 8 (ticket_uuid_hex w)) (tickets_db st)
  = None ->
  let s := get_statistics st in
  let s' := get_statistics (snd (process_payment str_e payment_request w st)) in
  Statistics.total_tickets s' = Statistics.total_tickets s + 1
  /\ Statistics.total_payments s'
     = (Statistics.total_payments s + PaymentRequest.amount payment_request)%float
  /\ Statistics.total_prizes s' = Statistics.total_prizes s
  /\ Statistics.winners_count s' = Statistics.winners_count s.
Proof.
  intros V A G. cbv zeta. rewrite process_payment_state.
  rewrite (process_payment_try_approved payment_request w st V A). cbn [snd].
  unfold get_statistics.
  cbn [Statistics.total_tickets Statistics.total_payments
         Statistics.total_prizes Statistics.winners_count tickets_db].
  rewrite !py_sum_float_prices, !py_sum_int_paid_out, !length_winners.
  rewrite (DictEntries.values_set_absent _ _ _ G).
  rewrite total_collected_app. cbn [Ticket.price].
  split; [rewrite DictEntries.len_set, G; reflexivity | ].
  split; [reflexivity | ].
  apply paid_out_app_unscratched. reflexivity.
Qed.

Lemma process_payment_statistics_witness :
  let s := get_statistics initial_state in
  let s' :=
    get_statistics
      (snd (process_payment sample_str sample_request sample_draws
              initial_state)) in
  Statistics.total_tickets s' = Statistics.total_tickets s + 1
  /\ Statistics.total_payments s'
     = (Statistics.total_payments s + PaymentRequest.amount sample_request)%float
  /\ Statistics.total_prizes s' = Statistics.total_prizes s
  /\ Statistics.winners_count s' = Statistics.winners_count s.
Proof.
  apply (process_payment_statistics sample_str sample_request sample_draws
           initial_state); reflexivity.
Defined.

(** ** The counts of the health check *)

(** X14. The counts that [health_check] reports never decrease: a call of
    [process_payment] adds at most one payment and at most one ticket, none
    of either when the amount is not a configured price, and no ticket when
    the approval draw is not below 0.85; a call of [scratch_ticket] changes
    neither count. *)
Theorem health_check_counts (str_e : HTTPException -> string)
  (payment_request : PaymentRequest.t) (w : Draws) (st : State)
  (ticket_id now : string) :
  let h := health_check now st in
  let paid := health_check now (snd (process_payment str_e payment_request w st)) in
  let scratched := health_check now (snd (scratch_ticket ticket_id now st)) in
  HealthCheck.tickets_count h <= HealthCheck.tickets_count paid
    <= HealthCheck.tickets_count h + 1
  /\ HealthCheck.payments_count h <= HealthCheck.payments_count paid
       <= HealthCheck.payments_count h + 1
  /\ (float_in (PaymentRequest.amount payment_request) valid_prices = false ->
      HealthCheck.tickets_count paid = HealthCheck.tickets_count h
      /\ HealthCheck.payments_count paid = HealthCheck.payments_count h)
  /\ ((approval_random w <? MercadoPagoSimulator.success_rate)%float = false ->
      HealthCheck.tickets_count paid = HealthCheck.tickets_count h)
  /\ HealthCheck.tickets_count scratched = HealthCheck.tickets_count h
  /\ HealthCheck.payments_count scratched = HealthCheck.payments_count h.
Proof.
  cbv zeta. unfold health_check.
  cbn [HealthCheck.tickets_count HealthCheck.payments_count].
  rewrite process_payment_state.
  assert (Dict.len (tickets_db (snd (scratch_ticket ticket_id now st)))
          = Dict.len (tickets_db st)
          /\ Dict.len (payments_db (snd (scratch_ticket ticket_id now st)))
             = Dict.len (payments_db st)) as Hscratch.
  { unfold scratch_ticket.
    destruct (Dict.get ticket_id (tickets_db st)) as [ticket | ] eqn:G;
      [ | split; reflexivity].
    destruct (Ticket.scratched ticket); [split; reflexivity | ].
    cbn [snd tickets_db payments_db]. rewrite DictEntries.len_set, G.
    split; reflexivity. }
  destruct (float_in (PaymentRequest.amount payment_request) valid_prices)
    eqn:V.
  - destruct (approval_random w <? MercadoPagoSimulator.success_rate)%float
      eqn:A.
    + rewrite (process_payment_try_approved payment_request w st V A).
      cbn [snd tickets_db payments_db]. rewrite !DictEntries.len_set.
      destruct (Dict.get _ (tickets_db st)), (Dict.get _ (payments_db st));
        repeat split; try discriminate; try apply Hscratch; lia.
    + rewrite (process_payment_try_not_approved payment_request w st V A).
      cbn [snd tickets_db payments_db]. rewrite !DictEntries.len_set.
      destruct (Dict.get _ (payments_db st));
        repeat split; try discriminate; try apply Hscratch; lia.
  - rewrite (process_payment_try_invalid_amount _ _ _ V). cbn [snd].
    repeat split; try apply Hscratch; lia.
Qed.

Example health_check_sample :
  health_check "2024-05-01T12:20:00" sample_state
  = HealthCheck.mk "healthy" "2024-05-01T12:20:00" 1 1.
Proof. vm_compute. reflexivity. Qed.

(** ** Bounds on what is paid out *)

Lemma prize_pools_get_configured_pool (ticket_price : float) :
  exists price,
    In (price, prize_pools_get ticket_price (prize_pools_getitem 5))
      prize_pools.
Proof.
  unfold prize_pools_get.
  destruct (find _ prize_pools) as [[price prizes] | ] eqn:F.
  - apply find_some in F. exists price. apply F.
  - exists 5. apply prize_pools_getitem_5.
Qed.

Lemma configured_pool_amounts (price : Z) (prizes : list Prize.t) :
  In (price, prizes) prize_pools ->
  Forall (fun prize => Prize.amount prize = 0 \/ 5 <= Prize.amount prize <= 2500)
    prizes.
Proof.
  intros H.
  destruct H as [H | [H | [H | [H | []]]]]; inversion H; subst; clear H;
    repeat (apply Forall_cons; [cbn [Prize.amount]; lia | ]);
    apply Forall_nil.
Qed.

(** Whatever the price and the draw, the amount is 0 or between 5 and 2500. *)
Lemma generate_prize_amount_range (ticket_price r : float) (now : string) :
  Outcome.amount (generate_prize ticket_price r now) = 0
  \/ 5 <= Outcome.amount (generate_prize ticket_price r now) <= 2500.
Proof.
  unfold generate_prize.
  destruct (prize_pools_get_configured_pool ticket_price) as [price Hin].
  pose proof (configured_pool_amounts _ _ Hin) as Hrange.
  pose proof (generate_prize_loop_spec
                (prize_pools_get ticket_price (prize_pools_getitem 5))
                0%float r) as Hloop.
  destruct (generate_prize_loop _ 0%float r) as [prize | ];
    cbn [Outcome.amount]; [ | left; reflexivity].
  destruct Hloop as (i & Hnth & _).
  apply (proj1 (Forall_forall _ _) Hrange). apply (nth_error_In _ _ Hnth).
Qed.

Lemma statistics_bounds_of (tickets : list Ticket.t) :
  Forall (fun t => Outcome.amount (Ticket.prize t) = 0
                   \/ 5 <= Outcome.amount (Ticket.prize t) <= 2500) tickets ->
  0 <= winners_count_of tickets <= Z.of_nat (List.length tickets)
  /\ 5 * winners_count_of tickets <= total_paid_out tickets
     <= 2500 * winners_count_of tickets.
Proof.
  induction 1 as [ | t rest Ht _ IH];
    cbn [winners_count_of total_paid_out List.length].
  - lia.
  - rewrite Nat2Z.inj_succ.
    destruct (Ticket.scratched t);
      destruct (Z.ltb_spec 0 (Outcome.amount (Ticket.prize t))); lia.
Qed.

(** X15. In every state the program reaches, the statistics are bounded: the
    count of winners is between 0 and the number of tickets, and the total of
    prizes is between 5 and 2500 times the count of winners (every prize paid
    is 0 or between 5 and 2500). *)
Theorem reachable_statistics_bounds (st : State) :
  reachable st ->
  let s := get_statistics st in
  0 <= Statistics.winners_count s <= Statistics.total_tickets s
  /\ 5 * Statistics.winners_count s <= Statistics.total_prizes s
     <= 2500 * Statistics.winners_count s.
Proof.
  intros Hreach. cbv zeta. unfold get_statistics.
  cbn [Statistics.winners_count Statistics.total_tickets
         Statistics.total_prizes].
  rewrite py_sum_int_paid_out, length_winners.
  assert (Dict.len (tickets_db st)
          = Z.of_nat (List.length (Dict.values (tickets_db st)))) as Hlen
    by (unfold Dict.len, Dict.values; rewrite length_map; reflexivity).
  rewrite Hlen. apply statistics_bounds_of.
  destruct (reachable_state_invariant st Hreach) as (Htickets & _ & _).
  unfold Dict.values. apply Forall_map.
  apply (Forall_impl _ (P := fun kv => ticket_invariant (fst kv) (snd kv)));
    [ | exact Htickets].
  intros [key t] (_ & _ & _ & r & now & Hprize). cbn [snd] in *.
  rewrite Hprize. apply generate_prize_amount_range.
Qed.

Lemma reachable_statistics_bounds_witness :
  let s := get_statistics sample_scratched in
  0 <= Statistics.winners_count s <= Statistics.total_tickets s
  /\ 5 * Statistics.winners_count s <= Statistics.total_prizes s
     <= 2500 * Statistics.winners_count s.
Proof.
  apply (reachable_statistics_bounds sample_scratched).
  unfold sample_scratched, sample_state.
  apply reachable_scratch_ticket, reachable_process_payment, reachable_initial.
Defined.

(** ** The top entry of each pool *)

(** X16. For every configured price and every draw, an outcome whose message
    is "JACKPOT!" has the tier "jackpot" only for the prices 25 and 50; for
    the prices 5 and 10 its amount (250, 500) is below 1000 and its tier is
    "major". *)
Theorem jackpot_message_tier (price : Z) (prizes : list Prize.t) (r : float)
  (now : string) :
  In (price, prizes) prize_pools ->
  Outcome.message (generate_prize (float_of_int price) r now) = "JACKPOT!" ->
  Outcome.prize_tier (generate_prize (float_of_int price) r now)
  = (if price <? 25 then "major" else "jackpot")
  /\ Outcome.is_winner (generate_prize (float_of_int price) r now) = true.
Proof.
  intros Hin. unfold generate_prize.
  rewrite (prize_pools_get_configured price prizes _ Hin).
  pose proof (generate_prize_loop_spec prizes 0%float r) as Hloop.
  destruct (generate_prize_loop prizes 0 r) as [prize | ];
    cbn [Outcome.message Outcome.prize_tier Outcome.is_winner];
    [ | discriminate].
  destruct Hloop as (i & Hnth & _). revert Hnth.
  destruct Hin as [H | [H | [H | [H | []]]]]; inversion H; subst; clear H;
    intros Hnth;
    do 5 (destruct i as [ | i];
          [ cbn in Hnth; inversion Hnth; subst; cbn [Prize.message];
            intros Hmsg; try discriminate Hmsg; split; reflexivity | ]);
    destruct i; discriminate Hnth.
Qed.

Lemma jackpot_message_tier_witness :
  Outcome.prize_tier (generate_prize (float_of_int 5) 0.9995 "2024-05-01T12:00:00")
  = (if 5 <? 25 then "major" else "jackpot")
  /\ Outcome.is_winner
       (generate_prize (float_of_int 5) 0.9995 "2024-05-01T12:00:00") = true.
Proof.
  apply (jackpot_message_tier 5 (prize_pools_getitem 5)).
  - left. reflexivity.
  - reflexivity.
Defined.

Example jackpot_at_5 :
  generate_prize 5 0.9995 "t" = Outcome.mk 250 "JACKPOT!" true "major" "t".
Proof. vm_compute. reflexivity. Qed.

(** ** The expected prize *)

(** The expected amount of a pool, each amount weighted by the decimal
    literal of its probability, over the rationals. *)
Definition expected_prize (prizes : list Prize.t) (literals : list Q) : Q :=
  fold_left Qplus
    (map (fun pq => (inject_Z (Prize.amount (fst pq)) * snd pq)%Q)
       (combine prizes literals))
    0%Q.

(** X17. Over the exact decimal probabilities of the source, the expected
    prize of a ticket is 3.15, 7.2, 22.25 and 50.5 for the prices 5, 10, 25
    and 50: below the price for the first three, above the price for a
    ticket of 50. *)
Theorem expected_prize_per_price (price : Z) (prizes : list Prize.t)
  (literals : list Q) :
  In (price, prizes) prize_pools ->
  In (price, literals) probability_literals ->
  (expected_prize prizes literals
   == match price with
      | 5%Z => 3.15
      | 10%Z => 7.2
      | 25%Z => 22.25
      | _ => 50.5
      end)%Q
  /\ (price <> 50 -> (expected_prize prizes literals < inject_Z price)%Q)
  /\ (price = 50 -> (inject_Z price < expected_prize prizes literals)%Q).
Proof.
  intros Hp Hl.
  destruct Hp as [Hp | [Hp | [Hp | [Hp | []]]]]; inversion Hp; subst; clear Hp;
    destruct Hl as [Hl | [Hl | [Hl | [Hl | []]]]]; inversion Hl; subst;
    clear Hl;
    (split; [reflexivity | ]);
    (split; intros H; [try (contradiction H; reflexivity) | try discriminate H]);
    reflexivity.
Qed.

Lemma expected_prize_per_price_witness :
  (expected_prize (prize_pools_getitem 50) [0.60; 0.22; 0.15; 0.029; 0.001]
   == 50.5)%Q
  /\ (50 <> 50 ->
      (expected_prize (prize_pools_getitem 50) [0.60; 0.22; 0.15; 0.029; 0.001]
       < inject_Z 50)%Q)
  /\ (50 = 50 ->
      (inject_Z 50
       < expected_prize (prize_pools_getitem 50)
           [0.60; 0.22; 0.15; 0.029; 0.001])%Q).
Proof.
  apply (expected_prize_per_price 50 (prize_pools_getitem 50)
           [0.60; 0.22; 0.15; 0.029; 0.001]%Q).
  - do 3 right. left. reflexivity.
  - do 3 right. left. reflexivity.
Defined.
